(** * List editing core of roosterjs: a shallow embedding and its properties

    Sources embedded here:
    - [deleteEmptyList.ts] ([isEmptyBlock], [deleteEmptyList]);
    - [setModelListStartNumber.ts] ([setModelListStartNumber]);
    - the list style inference file ([getListStyleType], [getPreviousListLevel],
      [getPreviousListStyle], the [bulletListType] table);
    - the legacy edit features ([isAListPattern], [AutoBullet], [AutoBulletList],
      [AutoNumberingList], [isFirstItemOfAList], [cacheGetListElement],
      [shouldTriggerList]).

    The commit of list chains is imported by the edit features and is not
    among the sources; it is modelled from the specification in [ListChain].

    JavaScript values are modelled as the code uses them: a string is its
    sequence of UTF-16 code units, a number that the code only parses, compares
    and stores is an integer or NaN, an array is a list indexed by a signed
    integer (a negative or too large index reads [undefined]), and an object
    that is written after it was shared carries an identity tag.  A call that
    can throw answers a [Completion]; a call that writes answers the state
    after it; an action of an edit feature answers the calls it makes on the
    editor, in order. *)

From Stdlib Require Import String Ascii.
From stdpp Require Import base numbers option list gmap.

Local Open Scope Z_scope.

(* ===================================================================== *)
(** * JavaScript strings, numbers and arrays *)
(* ===================================================================== *)

Module Js.

(** A string is a list of UTF-16 code units. *)
Abbreviation JsString := (list N).

(** The code units of an ASCII literal. *)
Definition str (s : string) : JsString :=
  map N_of_ascii (list_ascii_of_string s).

(** A number as this code handles it: the result of [parseInt], compared with
    [===] and stored.  [parseInt] yields an integer or NaN. *)
Inductive JsNumber :=
| NaN
| Num (z : Z).

#[global] Instance JsNumber_eq_dec : EqDecision JsNumber.
Proof. solve_decision. Defined.

Inductive JsError := TypeError.

(** How a call ends: it returns a value or throws. *)
Inductive Completion (A : Type) :=
| Returned (a : A)
| Thrown (e : JsError).

Arguments Returned {A} a.
Arguments Thrown {A} e.

(** [ToBoolean] on a number: 0 and NaN are falsy. *)
Definition truthy (n : JsNumber) : bool :=
  match n with
  | NaN => false
  | Num z => negb (z =? 0)
  end.

(** [arr[i]]: [undefined] outside [0 .. length-1]. *)
Definition get {A} (arr : list A) (i : Z) : option A :=
  if i <? 0 then None else arr !! Z.to_nat i.

(** WhiteSpace and LineTerminator code units: what [\s], [trim] and the
    leading-blank skip of [parseInt] recognise. *)
Definition isWhiteSpace (c : N) : bool :=
  let c := Z.of_N c in
  ((9 <=? c) && (c <=? 13)) || (c =? 32) || (c =? 160) || (c =? 5760)
  || ((8192 <=? c) && (c <=? 8202)) || (c =? 8232) || (c =? 8233)
  || (c =? 8239) || (c =? 8287) || (c =? 12288) || (c =? 65279).

Fixpoint trimStart (s : JsString) : JsString :=
  match s with
  | c :: s' => if isWhiteSpace c then trimStart s' else s
  | [] => []
  end.

(** [String.prototype.trim]. *)
Definition trim (s : JsString) : JsString :=
  rev (trimStart (rev (trimStart s))).

(** The value of a code unit as a digit of the given radix. *)
Definition digitValue (radix : Z) (c : N) : option Z :=
  let c := Z.of_N c in
  let v :=
    if (48 <=? c) && (c <=? 57) then Some (c - 48)
    else if (97 <=? c) && (c <=? 122) then Some (c - 97 + 10)
    else if (65 <=? c) && (c <=? 90) then Some (c - 65 + 10)
    else None in
  match v with
  | Some d => if d <? radix then Some d else None
  | None => None
  end.

(** The value of the longest prefix of digits; [None] when it is empty. *)
Fixpoint parseDigits (radix : Z) (acc : option Z) (s : JsString) : option Z :=
  match s with
  | c :: s' =>
      match digitValue radix c with
      | Some d => parseDigits radix (Some (radix * default 0 acc + d)) s'
      | None => acc
      end
  | [] => acc
  end.

(** A leading [-] or [+]: the sign, and the rest. *)
Definition readSign (s : JsString) : Z * JsString :=
  match s with
  | c :: s' =>
      if (c =? 45)%N then (-1, s')
      else if (c =? 43)%N then (1, s')
      else (1, s)
  | [] => (1, s)
  end.

(** A leading [0x] or [0X] selects radix 16; the radix, and the rest. *)
Definition readRadix (s : JsString) : Z * JsString :=
  match s with
  | c1 :: c2 :: s' =>
      if ((c1 =? 48) && ((c2 =? 120) || (c2 =? 88)))%N then (16, s') else (10, s)
  | _ => (10, s)
  end.

(** [parseInt(s)] with no radix argument: leading blanks are skipped, a sign is
    read, a [0x]/[0X] prefix selects radix 16, and the longest prefix of digits
    is the value; no digit at all gives NaN.  (Exact below 2^53; a negative
    zero is not told apart from zero, which no comparison in this code does.) *)
Definition parseInt (s : JsString) : JsNumber :=
  let '(sign, s) := readSign (trimStart s) in
  let '(radix, s) := readRadix s in
  match parseDigits radix None s with
  | Some v => Num (sign * v)
  | None => NaN
  end.

(** [arr.indexOf(x)] under a given equality test: the first index, or -1. *)
Fixpoint indexOfFrom {A} (same : A -> bool) (arr : list A) (from : Z) : Z :=
  match arr with
  | [] => -1
  | y :: arr' => if same y then from else indexOfFrom same arr' (from + 1)
  end.

Definition indexOfBy {A} (same : A -> bool) (arr : list A) : Z :=
  indexOfFrom same arr 0.

(** [s.indexOf(c)] for a one-unit needle [c]. *)
Definition indexOfChar (c : N) (s : JsString) : Z :=
  indexOfBy (N.eqb c) s.

(** ** Regular expressions

    The fragment the list features use, matched by derivatives.  [matches r s]
    is [/^r$/.test(s)]. *)
Inductive RegExp :=
| Void
| Eps
| Chr (c : N)
| CharRange (lo hi : N)
| Seq (r1 r2 : RegExp)
| Alt (r1 r2 : RegExp).

Fixpoint nullable (r : RegExp) : bool :=
  match r with
  | Void => false
  | Eps => true
  | Chr _ => false
  | CharRange _ _ => false
  | Seq r1 r2 => nullable r1 && nullable r2
  | Alt r1 r2 => nullable r1 || nullable r2
  end.

Fixpoint deriv (c : N) (r : RegExp) : RegExp :=
  match r with
  | Void => Void
  | Eps => Void
  | Chr d => if N.eqb c d then Eps else Void
  | CharRange lo hi => if (N.leb lo c && N.leb c hi)%bool then Eps else Void
  | Seq r1 r2 =>
      if nullable r1 then Alt (Seq (deriv c r1) r2) (deriv c r2)
      else Seq (deriv c r1) r2
  | Alt r1 r2 => Alt (deriv c r1) (deriv c r2)
  end.

Fixpoint matches (r : RegExp) (s : JsString) : bool :=
  match s with
  | [] => nullable r
  | c :: s' => matches (deriv c r) s'
  end.

(** *** Facts about array reads and [indexOf] *)

Lemma get_of_nat {A} (arr : list A) (k : nat) : get arr (Z.of_nat k) = arr !! k.
Proof.
  unfold get. destruct (Z.ltb_spec (Z.of_nat k) 0) as [H|H]; [lia|].
  by rewrite Nat2Z.id.
Qed.

Lemma get_negative {A} (arr : list A) (i : Z) : i < 0 -> get arr i = None.
Proof.
  intros H. unfold get. destruct (Z.ltb_spec i 0); [done | lia].
Qed.

(** [indexOf] answers -1 when no element passes the test, and otherwise the
    offset of the first one that does. *)
Lemma indexOfFrom_spec {A} (same : A -> bool) (arr : list A) (from : Z) :
  0 <= from ->
  (indexOfFrom same arr from = -1 /\ Forall (fun x => same x = false) arr)
  \/ (exists (k : nat) (x : A),
        indexOfFrom same arr from = from + Z.of_nat k
        /\ arr !! k = Some x /\ same x = true
        /\ forall (j : nat) (y : A), (j < k)%nat -> arr !! j = Some y -> same y = false).
Proof.
  revert from. induction arr as [|y arr IH]; intros from Hfrom; simpl.
  - by left.
  - destruct (same y) eqn:Hy.
    + right. exists 0%nat, y. repeat split; [lia | done | lia].
    + destruct (IH (from + 1) ltac:(lia)) as [[H1 H2] | (k & x & H1 & H2 & H3 & H4)].
      * left. split; [done | by constructor].
      * right. exists (S k), x. repeat split; [lia | done | done |].
        intros [|j] z Hj Hz; simpl in Hz; [by simplify_eq | apply (H4 j); [lia | done]].
Qed.

Lemma indexOfBy_spec {A} (same : A -> bool) (arr : list A) :
  (indexOfBy same arr = -1 /\ Forall (fun x => same x = false) arr)
  \/ (exists (k : nat) (x : A),
        indexOfBy same arr = Z.of_nat k
        /\ arr !! k = Some x /\ same x = true
        /\ forall (j : nat) (y : A), (j < k)%nat -> arr !! j = Some y -> same y = false).
Proof.
  unfold indexOfBy. destruct (indexOfFrom_spec same arr 0 ltac:(lia)) as [H|H]; [by left|].
  right. destruct H as (k & x & H1 & H2); exists k, x. by rewrite H1.
Qed.

(** [r{1,2}] *)
Definition oneOrTwo (r : RegExp) : RegExp := Seq r (Alt r Eps).

(** [/\s/.test(s)] *)
Definition hasWhiteSpace (s : JsString) : bool := existsb isWhiteSpace s.

End Js.

(* ===================================================================== *)
(** * The content model *)
(* ===================================================================== *)

Module ContentModel.
Import Js.

(** Identity of a JavaScript object.  Two occurrences of a block with the same
    tag are the same object: [indexOf] compares tags, and a write to an object
    is seen at every occurrence of its tag. *)
Abbreviation Ref := nat.

Module SegmentType.
Inductive t := SelectionMarker | Br | Text | Entity | Image | General.
#[global] Instance eq_dec : EqDecision t.
Proof. solve_decision. Defined.
End SegmentType.

Module BlockGroupType.
Inductive t := Document | FormatContainer | ListItem | TableCell | General.
#[global] Instance eq_dec : EqDecision t.
Proof. solve_decision. Defined.
End BlockGroupType.

Inductive ListType := OL | UL.

(** An inline segment: its tag, and the [text] of a Text segment. *)
Record ContentModelSegment := {
  segmentType : SegmentType.t;
  text : JsString
}.

Record ContentModelListItemLevelFormat := {
  startNumberOverride : option JsNumber;
  listStyleType : option JsString
}.

(** One nesting level of a list item; [dataset] may be absent. *)
Record ContentModelListLevel := {
  listType : ListType;
  format : ContentModelListItemLevelFormat;
  dataset : option (list (JsString * JsString))
}.

Record ContentModelParagraph := {
  paragraphRef : Ref;
  segments : list ContentModelSegment
}.

(** What a block group holds besides its blocks, by [blockGroupType]. *)
Inductive BlockGroupData :=
| Document
| FormatContainer
| ListItem (levels : list ContentModelListLevel)
    (itemFormat : option ContentModelListItemLevelFormat)
| TableCell
| General.

(** Blocks and block groups.  Tables, dividers and entities are leaves here:
    the functions below only test that such a block is present. *)
Inductive ContentModelBlock :=
| Paragraph (paragraph : ContentModelParagraph)
| BlockGroup (group : ContentModelBlockGroup)
| Table
| Divider
| Entity
with ContentModelBlockGroup :=
| Group (ref : Ref) (data : BlockGroupData) (blocks : list ContentModelBlock).

Definition ref (g : ContentModelBlockGroup) : Ref :=
  match g with Group r _ _ => r end.

Definition data (g : ContentModelBlockGroup) : BlockGroupData :=
  match g with Group _ d _ => d end.

Definition blocks (g : ContentModelBlockGroup) : list ContentModelBlock :=
  match g with Group _ _ bs => bs end.

Definition blockGroupType (g : ContentModelBlockGroup) : BlockGroupType.t :=
  match data g with
  | Document => BlockGroupType.Document
  | FormatContainer => BlockGroupType.FormatContainer
  | ListItem _ _ => BlockGroupType.ListItem
  | TableCell => BlockGroupType.TableCell
  | General => BlockGroupType.General
  end.

(** A block group seen at the type [ContentModelListItem]. *)
Record ContentModelListItem := {
  itemRef : Ref;
  levels : list ContentModelListLevel;
  listItemFormat : option ContentModelListItemLevelFormat;
  itemBlocks : list ContentModelBlock
}.

Definition asListItem (g : ContentModelBlockGroup) : option ContentModelListItem :=
  match g with
  | Group r (ListItem lv f) bs =>
      Some {| itemRef := r; levels := lv; listItemFormat := f; itemBlocks := bs |}
  | _ => None
  end.

(** [x === item] for a block [x] and a block group [item]. *)
Definition sameGroup (item : ContentModelBlockGroup) (x : ContentModelBlock) : bool :=
  match x with
  | BlockGroup g => bool_decide (ref g = ref item)
  | _ => false
  end.

(** [x === paragraph] for a block [x]. *)
Definition sameParagraph (p : ContentModelParagraph) (x : ContentModelBlock) : bool :=
  match x with
  | Paragraph q => bool_decide (paragraphRef q = paragraphRef p)
  | _ => false
  end.

(** ** Writing the [levels] of a list item

    [item.levels = lv] for the object tagged [target], as seen from a block, a
    group or a list of groups that may hold that object. *)
Definition setLevels (lv : list ContentModelListLevel) (d : BlockGroupData) : BlockGroupData :=
  match d with
  | ListItem _ f => ListItem lv f
  | other => other
  end.

Fixpoint writeLevelsBlock (target : Ref) (lv : list ContentModelListLevel)
    (b : ContentModelBlock) : ContentModelBlock :=
  match b with
  | BlockGroup g => BlockGroup (writeLevels target lv g)
  | other => other
  end
with writeLevels (target : Ref) (lv : list ContentModelListLevel)
    (g : ContentModelBlockGroup) : ContentModelBlockGroup :=
  match g with
  | Group r d bs =>
      Group r (if decide (r = target) then setLevels lv d else d)
        (map (writeLevelsBlock target lv) bs)
  end.

(** Two views of the store that differ by that one write and nothing else. *)
Inductive differOnlyInLevelsBlock (target : Ref) (lv : list ContentModelListLevel) :
    ContentModelBlock -> ContentModelBlock -> Prop :=
| dol_paragraph p : differOnlyInLevelsBlock target lv (Paragraph p) (Paragraph p)
| dol_table : differOnlyInLevelsBlock target lv Table Table
| dol_divider : differOnlyInLevelsBlock target lv Divider Divider
| dol_entity : differOnlyInLevelsBlock target lv Entity Entity
| dol_group g g' :
    differOnlyInLevels target lv g g' ->
    differOnlyInLevelsBlock target lv (BlockGroup g) (BlockGroup g')
with differOnlyInLevels (target : Ref) (lv : list ContentModelListLevel) :
    ContentModelBlockGroup -> ContentModelBlockGroup -> Prop :=
| dol_in_group r d d' bs bs' :
    Forall2 (differOnlyInLevelsBlock target lv) bs bs' ->
    (r <> target -> d' = d) ->
    (r = target -> d' = setLevels lv d) ->
    differOnlyInLevels target lv (Group r d bs) (Group r d' bs').

(** *** The write changes the levels of its target and nothing else *)

Fixpoint writeLevelsBlock_differs (target : Ref) (lv : list ContentModelListLevel)
    (b : ContentModelBlock) {struct b} :
  differOnlyInLevelsBlock target lv b (writeLevelsBlock target lv b)
with writeLevels_differs (target : Ref) (lv : list ContentModelListLevel)
    (g : ContentModelBlockGroup) {struct g} :
  differOnlyInLevels target lv g (writeLevels target lv g).
Proof.
  - destruct b as [p|g| | |]; simpl; constructor. apply writeLevels_differs.
  - destruct g as [r d bs]; simpl. constructor.
    + revert bs. fix IH 1. intros [|b bs]; simpl; constructor.
      * apply writeLevelsBlock_differs.
      * apply IH.
    + intros Hne. by destruct (decide (r = target)).
    + intros He. by destruct (decide (r = target)).
Qed.

(** After the write the target, when it is a list item, has the new levels. *)
Lemma writeLevels_target (lv : list ContentModelListLevel) (g : ContentModelBlockGroup) :
  data (writeLevels (ref g) lv g) = setLevels lv (data g)
  /\ ref (writeLevels (ref g) lv g) = ref g.
Proof.
  destruct g as [r d bs]; simpl. by destruct (decide (r = r)).
Qed.

(** The write along a path relates each group to its image. *)
Lemma Forall2_writeLevels (target : Ref) (lv : list ContentModelListLevel)
    (gs : list ContentModelBlockGroup) :
  Forall2 (differOnlyInLevels target lv) gs (map (writeLevels target lv) gs).
Proof.
  induction gs; simpl; constructor; [apply writeLevels_differs | done].
Qed.

End ContentModel.

(* ===================================================================== *)
(** * deleteEmptyList.ts *)
(* ===================================================================== *)

Module DeleteEmptyList.
Import Js ContentModel.

Inductive DeleteResult := notDeleted | singleChar | range | nothingToDelete.

#[global] Instance DeleteResult_eq_dec : EqDecision DeleteResult.
Proof. solve_decision. Defined.

(** The insert point: the marker, its paragraph, and the block groups that
    hold it, the closest one first (the parent of [path[i]] is [path[i+1]]). *)
Record InsertPoint := {
  marker : ContentModelSegment;
  paragraph : ContentModelParagraph;
  path : list ContentModelBlockGroup
}.

(** The fields of the deletion context that [deleteEmptyList] reads. *)
Record DeleteSelectionContext := {
  deleteResult : DeleteResult;
  insertPoint : option InsertPoint
}.

(** [isEmptyBlock] on a block that is present. *)
Fixpoint isEmptyPresentBlock (block : ContentModelBlock) : bool :=
  match block with
  | Paragraph p =>
      forallb
        (fun segment =>
           bool_decide (segmentType segment <> SegmentType.SelectionMarker)
           && bool_decide (segmentType segment = SegmentType.Br))
        (segments p)
  | BlockGroup (Group _ _ bs) => forallb isEmptyPresentBlock bs
  | _ => true
  end.

(** [isEmptyBlock(block)], [block] possibly [undefined]. *)
Definition isEmptyBlock (block : option ContentModelBlock) : bool :=
  match block with
  | Some b => isEmptyPresentBlock b
  | None => false
  end.

(** Modelled from the spec: [getClosestAncestorBlockGroupIndex] is imported and
    not among the sources.  It locates the nearest block group of one of the
    given kinds on the path, the closest group being first, and answers its
    index, or -1 when there is none. *)
Definition getClosestAncestorBlockGroupIndex (path : list ContentModelBlockGroup)
    (blockGroupTypes : list BlockGroupType.t) : Z :=
  indexOfBy (fun g => bool_decide (blockGroupType g ∈ blockGroupTypes)) path.

(** [item.levels = lv] as seen from the context. *)
Definition writeLevelsInContext (target : Ref) (lv : list ContentModelListLevel)
    (context : DeleteSelectionContext) : DeleteSelectionContext :=
  {| deleteResult := deleteResult context;
     insertPoint :=
       (fun ip =>
          {| marker := marker ip;
             paragraph := paragraph ip;
             path := map (writeLevels target lv) (path ip) |})
       <$> insertPoint context |}.

Section WithSelection.

(** [hasSelectionInBlock] and [hasSelectionInBlockGroup] are imported and not
    among the sources; they only read the model. *)
Variable hasSelectionInBlock : ContentModelBlock -> bool.
Variable hasSelectionInBlockGroup : ContentModelBlockGroup -> bool.

(** The condition of the inner [if]. *)
Definition shouldClear (item : ContentModelBlockGroup)
    (previousBlock nextBlock : option ContentModelBlock) : bool :=
  hasSelectionInBlockGroup item
  && match previousBlock with
     | None => true
     | Some b => hasSelectionInBlock b
     end
  && bool_decide (is_Some nextBlock)
  && isEmptyBlock nextBlock.

(** [deleteEmptyList(context)]: how the call ends, and the context after it. *)
Definition deleteEmptyList (context : DeleteSelectionContext) :
    Completion unit * DeleteSelectionContext :=
  match bool_decide (deleteResult context = range), insertPoint context with
  | true, Some ip =>
      let index := getClosestAncestorBlockGroupIndex (path ip) [BlockGroupType.ListItem] in
      match get (path ip) index with
      | Some item =>
          if (0 <=? index) && bool_decide (blockGroupType item = BlockGroupType.ListItem) then
            match get (path ip) (index + 1) with
            | None => (Thrown TypeError, context)
            | Some parent =>
                let listItemIndex := indexOfBy (sameGroup item) (blocks parent) in
                let previousBlock :=
                  if -1 <? listItemIndex then get (blocks parent) (listItemIndex - 1)
                  else None in
                let nextBlock :=
                  if -1 <? listItemIndex then get (blocks parent) (listItemIndex + 1)
                  else None in
                if shouldClear item previousBlock nextBlock
                then (Returned tt, writeLevelsInContext (ref item) [] context)
                else (Returned tt, context)
            end
          else (Returned tt, context)
      | None => (Returned tt, context)
      end
  | _, _ => (Returned tt, context)
  end.

(** ** The trigger condition, in the words of the specification *)

(** [item] is the nearest block group of kind ListItem on the path, at index [i]. *)
Definition nearestListItem (ip : InsertPoint) (i : nat) (item : ContentModelBlockGroup) : Prop :=
  path ip !! i = Some item
  /\ blockGroupType item = BlockGroupType.ListItem
  /\ forall (j : nat) (g : ContentModelBlockGroup),
       (j < i)%nat -> path ip !! j = Some g -> blockGroupType g <> BlockGroupType.ListItem.

(** [item] sits at index [k] of [siblings], and at no earlier index. *)
Definition positionAmong (item : ContentModelBlockGroup) (siblings : list ContentModelBlock)
    (k : nat) : Prop :=
  (exists x, siblings !! k = Some x /\ sameGroup item x = true)
  /\ forall (j : nat) (y : ContentModelBlock),
       (j < k)%nat -> siblings !! j = Some y -> sameGroup item y = false.

(** The deletion was a range deletion; [item] is the nearest list item on the
    insert point's path and has selection in it; a previous sibling, if there
    is one, has selection in it; a next sibling exists and is recursively
    empty. *)
Definition collapses (context : DeleteSelectionContext) (item : ContentModelBlockGroup) : Prop :=
  deleteResult context = range
  /\ exists (ip : InsertPoint) (i : nat) (parent : ContentModelBlockGroup) (k : nat)
        (next : ContentModelBlock),
       insertPoint context = Some ip
       /\ nearestListItem ip i item
       /\ hasSelectionInBlockGroup item = true
       /\ path ip !! S i = Some parent
       /\ positionAmong item (blocks parent) k
       /\ (forall (j : nat) (previous : ContentModelBlock),
             S j = k -> blocks parent !! j = Some previous ->
             hasSelectionInBlock previous = true)
       /\ blocks parent !! S k = Some next
       /\ isEmptyBlock (Some next) = true.

(** The context after the call differs from the one before only in the levels
    of the object tagged [target], which are now [lv]. *)
Definition contextDiffersOnlyInLevels (target : Ref) (lv : list ContentModelListLevel)
    (before after : DeleteSelectionContext) : Prop :=
  deleteResult after = deleteResult before
  /\ option_Forall2
       (fun ip ip' =>
          marker ip' = marker ip /\ paragraph ip' = paragraph ip
          /\ Forall2 (differOnlyInLevels target lv) (path ip) (path ip'))
       (insertPoint before) (insertPoint after).

(** ** The call and its trigger condition *)

Lemma isListItem_decide (g : ContentModelBlockGroup) :
  bool_decide (blockGroupType g ∈ [BlockGroupType.ListItem]) = true
  <-> blockGroupType g = BlockGroupType.ListItem.
Proof.
  by rewrite bool_decide_eq_true, list_elem_of_singleton.
Qed.

Lemma shouldClear_true (item : ContentModelBlockGroup)
    (previousBlock nextBlock : option ContentModelBlock) :
  shouldClear item previousBlock nextBlock = true
  <-> hasSelectionInBlockGroup item = true
      /\ (forall b, previousBlock = Some b -> hasSelectionInBlock b = true)
      /\ exists next, nextBlock = Some next /\ isEmptyBlock (Some next) = true.
Proof.
  unfold shouldClear. rewrite !andb_true_iff, bool_decide_eq_true. split.
  - intros [[[H1 H2] [next ->]] H4]. repeat split; [done | | by exists next].
    intros b ->. done.
  - intros (H1 & H2 & next & -> & H4). repeat split; [done | | by eexists | done].
    destruct previousBlock; [by apply H2 | done].
Qed.

(** The nearest list item on a path is where the index search stops. *)
Lemma nearestListItem_index (ip : InsertPoint) (i : nat) (item : ContentModelBlockGroup) :
  nearestListItem ip i item
  <-> getClosestAncestorBlockGroupIndex (path ip) [BlockGroupType.ListItem] = Z.of_nat i
      /\ path ip !! i = Some item.
Proof.
  unfold nearestListItem, getClosestAncestorBlockGroupIndex.
  destruct (indexOfBy_spec
              (fun g => bool_decide (blockGroupType g ∈ [BlockGroupType.ListItem]))
              (path ip)) as [[Hi Hall] | (k & x & Hi & Hk & Hx & Hfirst)]; rewrite Hi.
  - split.
    + intros (Hget & Hty & _). exfalso.
      rewrite Forall_lookup in Hall. specialize (Hall _ _ Hget). simpl in Hall.
      apply isListItem_decide in Hty. congruence.
    + intros [? _]. lia.
  - apply isListItem_decide in Hx. split.
    + intros (Hget & Hty & Hbefore). split; [|done]. f_equal.
      destruct (Nat.lt_trichotomy k i) as [Hlt | [-> | Hlt]]; [|done|].
      * exfalso. by apply (Hbefore k x).
      * exfalso. apply isListItem_decide in Hty. specialize (Hfirst i item Hlt Hget).
        simpl in Hfirst. congruence.
    + intros [Hik Hget]. apply Nat2Z.inj in Hik. subst k. simplify_eq.
      repeat split; [done.. |]. intros j g Hj Hg Hty.
      apply isListItem_decide in Hty. specialize (Hfirst j g Hj Hg). simpl in Hfirst.
      congruence.
Qed.

(** The position of an item among its siblings is what [indexOf] answers. *)
Lemma positionAmong_index (item : ContentModelBlockGroup) (siblings : list ContentModelBlock)
    (k : nat) :
  positionAmong item siblings k <-> indexOfBy (sameGroup item) siblings = Z.of_nat k.
Proof.
  unfold positionAmong.
  destruct (indexOfBy_spec (sameGroup item) siblings)
    as [[Hi Hall] | (k' & x & Hi & Hk & Hx & Hfirst)]; rewrite Hi.
  - split; [|lia]. intros [(x & Hget & Hx) _]. exfalso.
    rewrite Forall_lookup in Hall. specialize (Hall _ _ Hget). simpl in Hall. congruence.
  - split.
    + intros [(y & Hget & Hy) Hbefore]. f_equal.
      destruct (Nat.lt_trichotomy k' k) as [Hlt | [-> | Hlt]]; [|done|].
      * exfalso. specialize (Hbefore k' x Hlt Hk). congruence.
      * exfalso. specialize (Hfirst k y Hlt Hget). congruence.
    + intros Hkk. apply Nat2Z.inj in Hkk. subst k'. split; [by exists x | done].
Qed.

(** Either the trigger condition holds of the nearest list item and the call
    writes empty levels to it, or it holds of no item and the call writes
    nothing. *)
Lemma deleteEmptyList_cases (context : DeleteSelectionContext) :
  (exists item, collapses context item
     /\ deleteEmptyList context = (Returned tt, writeLevelsInContext (ref item) [] context))
  \/ ((forall item, ~ collapses context item)
      /\ snd (deleteEmptyList context) = context).
Proof.
  unfold deleteEmptyList.
  destruct (bool_decide_reflect (deleteResult context = range)) as [Hr|Hr];
    [|right; split; [intros item [H _]; done | done]].
  destruct (insertPoint context) as [ip|] eqn:Hip;
    [|right; split; [intros item (_ & ip & i & parent & k & next & H & _); congruence | done]].
  cbv zeta.
  destruct (indexOfBy_spec
              (fun g => bool_decide (blockGroupType g ∈ [BlockGroupType.ListItem]))
              (path ip)) as [[Hi Hall] | (i & item & Hi & Hget & Hty & Hfirst)].
  - right. unfold getClosestAncestorBlockGroupIndex. rewrite Hi.
    rewrite get_negative by lia. split; [|done].
    intros item (_ & ip' & i & parent & k & next & Hip' & Hnear & _). simplify_eq.
    apply nearestListItem_index in Hnear as [Hidx _].
    unfold getClosestAncestorBlockGroupIndex in Hidx. lia.
  - assert (Hnear : nearestListItem ip i item).
    { apply nearestListItem_index. by split. }
    assert (Hidx : getClosestAncestorBlockGroupIndex (path ip) [BlockGroupType.ListItem]
                   = Z.of_nat i) by done.
    rewrite Hidx, get_of_nat, Hget.
    apply isListItem_decide in Hty.
    rewrite (bool_decide_eq_true_2 _ Hty).
    destruct (Z.leb_spec 0 (Z.of_nat i)); [|lia]. simpl.
    replace (Z.of_nat i + 1) with (Z.of_nat (S i)) by lia. rewrite get_of_nat.
    assert (Huniq : forall item', collapses context item' ->
              item' = item /\ exists parent k next,
                path ip !! S i = Some parent
                /\ indexOfBy (sameGroup item) (blocks parent) = Z.of_nat k
                /\ hasSelectionInBlockGroup item = true
                /\ (forall (j : nat) previous, S j = k ->
                      blocks parent !! j = Some previous ->
                      hasSelectionInBlock previous = true)
                /\ blocks parent !! S k = Some next
                /\ isEmptyBlock (Some next) = true).
    { intros item' (_ & ip' & i' & parent & k & next & Hip' & Hnear' & Hsel & Hp & Hpos
                    & Hprev & Hnext & Hempty).
      simplify_eq.
      apply nearestListItem_index in Hnear' as [Hidx' Hget'].
      assert (i' = i) as -> by lia. simplify_eq. split; [done|].
      apply positionAmong_index in Hpos. by exists parent, k, next. }
    destruct (path ip !! S i) as [parent|] eqn:Hparent.
    + destruct (indexOfBy_spec (sameGroup item) (blocks parent))
        as [[Hk Hnone] | (k & x & Hk & Hx & Hsame & Hbefore)]; rewrite Hk.
      * simpl. unfold shouldClear; simpl. rewrite !andb_false_r. right. split; [|done].
        intros item' Hc. apply Huniq in Hc as (-> & parent' & k & next & Hp & Hk' & _).
        injection Hp as <-. lia.
      * destruct (Z.ltb_spec (-1) (Z.of_nat k)); [|lia].
        replace (Z.of_nat k + 1) with (Z.of_nat (S k)) by lia. rewrite get_of_nat.
        destruct (shouldClear item (get (blocks parent) (Z.of_nat k - 1))
                    (blocks parent !! S k)) eqn:Hclear.
        -- left. exists item. split; [|done].
           apply shouldClear_true in Hclear as (Hsel & Hprev & next & Hnext & Hempty).
           split; [done|]. exists ip, i, parent, k, next.
           refine (conj Hip (conj Hnear (conj Hsel (conj Hparent (conj _ (conj _
             (conj Hnext Hempty))))))).
           ++ apply positionAmong_index. done.
           ++ intros j previous <- Hj. apply Hprev.
              replace (Z.of_nat (S j) - 1) with (Z.of_nat j) by lia.
              by rewrite get_of_nat.
        -- right. split; [|done]. intros item' Hc.
           apply Huniq in Hc as (-> & parent' & k' & next & Hp & Hk' & Hsel & Hprev
                                 & Hnext & Hempty).
           injection Hp as <-. assert (k' = k) as -> by lia.
           assert (shouldClear item (get (blocks parent) (Z.of_nat k - 1))
                     (blocks parent !! S k) = true); [|congruence].
           apply shouldClear_true. split; [done|]. split; [|by exists next].
           intros b Hb. destruct k as [|j].
           ++ rewrite get_negative in Hb by lia. done.
           ++ replace (Z.of_nat (S j) - 1) with (Z.of_nat j) in Hb by lia.
              rewrite get_of_nat in Hb. by apply (Hprev j).
    + right. split; [|done]. intros item' Hc.
      apply Huniq in Hc as (-> & parent' & k' & next & Hp & _). done.
Qed.


(** C9.  Whatever the context, [deleteEmptyList] changes nothing but the levels
    of the matched list item: when the trigger condition holds of [item], the
    context after the call differs from the one before only in the levels of
    the object [item] (every other group, every block, paragraph and segment,
    the deletion kind and the other fields of the insert point are the same);
    when the condition holds of no item, the context is unchanged. *)
Theorem deleteEmptyList_changes_only_levels (context : DeleteSelectionContext) :
  (exists item, collapses context item
     /\ contextDiffersOnlyInLevels (ref item) [] context (snd (deleteEmptyList context)))
  \/ ((forall item, ~ collapses context item)
      /\ snd (deleteEmptyList context) = context).
Proof.
  destruct (deleteEmptyList_cases context) as [(item & Hc & Hrun) | H]; [left | by right].
  exists item. split; [done|]. rewrite Hrun. simpl.
  split; [done|]. simpl. destruct (insertPoint context) as [ip|]; simpl; constructor.
  repeat split. simpl. apply Forall2_writeLevels.
Qed.

End WithSelection.

(** ** The recursively-empty check *)

(** The claim as the specification words it fails: a paragraph that holds only
    a selection marker is not empty for [isEmptyBlock]. *)
Lemma isEmptyBlock_selection_marker_counterexample :
  ~ (forall p : ContentModelParagraph,
       isEmptyBlock (Some (Paragraph p)) = true
       <-> Forall (fun segment =>
                     segmentType segment = SegmentType.SelectionMarker
                     \/ segmentType segment = SegmentType.Br)
             (segments p)).
Proof.
  intros H.
  pose (p := {| paragraphRef := 0%nat;
                segments := [ {| segmentType := SegmentType.SelectionMarker; text := [] |} ] |}).
  destruct (H p) as [_ Hback].
  assert (Hp : isEmptyBlock (Some (Paragraph p)) = true).
  { apply Hback. repeat constructor. }
  vm_compute in Hp. discriminate.
Qed.

(** C2, amended.  [isEmptyBlock] answers true on a paragraph exactly when every
    one of its segments is a line break (a selection marker makes the paragraph
    non-empty), and on a block group exactly when it answers true on every one
    of its child blocks. *)
Theorem isEmptyBlock_characterised :
  (forall p : ContentModelParagraph,
     isEmptyBlock (Some (Paragraph p)) = true
     <-> Forall (fun segment => segmentType segment = SegmentType.Br) (segments p))
  /\ (forall g : ContentModelBlockGroup,
        isEmptyBlock (Some (BlockGroup g)) = true
        <-> Forall (fun b => isEmptyBlock (Some b) = true) (blocks g)).
Proof.
  split.
  - intros p. simpl. rewrite forallb_forall, Forall_forall. split.
    + intros H segment Hin. apply list_elem_of_In, H in Hin.
      apply andb_true_iff in Hin as [_ Hbr]. by apply bool_decide_eq_true in Hbr.
    + intros H segment Hin. apply list_elem_of_In, H in Hin. rewrite Hin. done.
  - intros [r d bs]. simpl. rewrite forallb_forall, Forall_forall. split.
    + intros H b Hin. by apply H, list_elem_of_In.
    + intros H b Hin. by apply H, list_elem_of_In.
Qed.

(** ** The specification's scenario, run

    A reading of the two imported selection tests for the examples: a block has
    selection in it when a selection marker lies in it. *)
Fixpoint markerInBlock (b : ContentModelBlock) : bool :=
  match b with
  | Paragraph p =>
      existsb (fun s => bool_decide (segmentType s = SegmentType.SelectionMarker)) (segments p)
  | BlockGroup (Group _ _ bs) => existsb markerInBlock bs
  | _ => false
  end.

Definition markerInGroup (g : ContentModelBlockGroup) : bool :=
  existsb markerInBlock (blocks g).

Definition aMarker : ContentModelSegment :=
  {| segmentType := SegmentType.SelectionMarker; text := [] |}.

Definition aBr : ContentModelSegment :=
  {| segmentType := SegmentType.Br; text := [] |}.

Definition someText : ContentModelSegment :=
  {| segmentType := SegmentType.Text; text := str "abc" |}.

Definition bulletLevel : ContentModelListLevel :=
  {| listType := UL;
     format := {| startNumberOverride := None; listStyleType := None |};
     dataset := None |}.

Definition markedParagraph : ContentModelParagraph :=
  {| paragraphRef := 10; segments := [aMarker; aBr] |}.

(** The first item of a list, holding the insert point after the deletion. *)
Definition firstItem : ContentModelBlockGroup :=
  Group 1 (ListItem [bulletLevel] None) [Paragraph markedParagraph].

(** An empty list item: one paragraph with a line break. *)
Definition emptyItem : ContentModelBlockGroup :=
  Group 2 (ListItem [bulletLevel] None)
    [Paragraph {| paragraphRef := 11; segments := [aBr] |}].

(** A list item with text and no selection in it. *)
Definition textItem : ContentModelBlockGroup :=
  Group 3 (ListItem [bulletLevel] None)
    [Paragraph {| paragraphRef := 12; segments := [someText] |}].

Definition contextOver (deleted : DeleteResult) (siblings : list ContentModelBlock) :
    DeleteSelectionContext :=
  {| deleteResult := deleted;
     insertPoint :=
       Some {| marker := aMarker; paragraph := markedParagraph;
               path := [firstItem; Group 0 Document siblings] |} |}.

(** Deleting from inside the first item through to a following empty item
    clears the first item's levels, in the path and in the document. *)
Example deleteEmptyList_first_item_collapses :
  deleteEmptyList markerInBlock markerInGroup
    (contextOver range [BlockGroup firstItem; BlockGroup emptyItem])
  = (Returned tt,
     {| deleteResult := range;
        insertPoint :=
          Some {| marker := aMarker; paragraph := markedParagraph;
                  path := [ Group 1 (ListItem [] None) [Paragraph markedParagraph];
                            Group 0 Document
                              [ BlockGroup (Group 1 (ListItem [] None) [Paragraph markedParagraph]);
                                BlockGroup emptyItem ] ] |} |}).
Proof. reflexivity. Qed.

(** With a previous sibling item that has text and no selection, nothing is
    cleared. *)
Example deleteEmptyList_unselected_previous_sibling :
  deleteEmptyList markerInBlock markerInGroup
    (contextOver range [BlockGroup textItem; BlockGroup firstItem; BlockGroup emptyItem])
  = (Returned tt,
     contextOver range [BlockGroup textItem; BlockGroup firstItem; BlockGroup emptyItem]).
Proof. reflexivity. Qed.

(** A caret deletion clears nothing. *)
Example deleteEmptyList_single_char :
  deleteEmptyList markerInBlock markerInGroup
    (contextOver singleChar [BlockGroup firstItem; BlockGroup emptyItem])
  = (Returned tt, contextOver singleChar [BlockGroup firstItem; BlockGroup emptyItem]).
Proof. reflexivity. Qed.

(** A next sibling that holds a selection marker is not empty: nothing is
    cleared. *)
Example deleteEmptyList_next_sibling_with_marker :
  deleteEmptyList markerInBlock markerInGroup
    (contextOver range [BlockGroup firstItem; Paragraph markedParagraph])
  = (Returned tt, contextOver range [BlockGroup firstItem; Paragraph markedParagraph]).
Proof. reflexivity. Qed.

(** A list item that is the last entry of the path has no parent to read: the
    call throws, and the context is as it was. *)
Example deleteEmptyList_no_parent :
  let context :=
    {| deleteResult := range;
       insertPoint := Some {| marker := aMarker; paragraph := markedParagraph;
                              path := [firstItem] |} |} in
  deleteEmptyList markerInBlock markerInGroup context = (Thrown TypeError, context).
Proof. reflexivity. Qed.

End DeleteEmptyList.

(* ===================================================================== *)
(** * setModelListStartNumber.ts: the model API *)
(* ===================================================================== *)

Module SetModelListStartNumber.
Import Js ContentModel.

(** [level.format.startNumberOverride = value] *)
Definition withStartNumberOverride (value : JsNumber) (level : ContentModelListLevel) :
    ContentModelListLevel :=
  {| listType := listType level;
     format := {| startNumberOverride := Some value;
                  listStyleType := listStyleType (format level) |};
     dataset := dataset level |}.

Section WithSelection.

(** [getFirstSelectedListItem] is imported and not among the sources: it
    answers a list item of the model, or [undefined]. *)
Variable getFirstSelectedListItem : ContentModelBlockGroup -> option ContentModelListItem.

(** [setModelListStartNumber(model, value)]: the answer, and the model after
    the call.  The levels of a list item are its own (no other item shares a
    level object), so the write to the level's format is a write to the levels
    of that item. *)
Definition setModelListStartNumber (model : ContentModelBlockGroup) (value : JsNumber) :
    bool * ContentModelBlockGroup :=
  let listItem := getFirstSelectedListItem model in
  let level :=
    listItem ≫= fun li => get (levels li) (Z.of_nat (length (levels li)) - 1) in
  match listItem, level with
  | Some li, Some lvl =>
      (true,
       writeLevels (itemRef li)
         (<[Nat.pred (length (levels li)) := withStartNumberOverride value lvl]> (levels li))
         model)
  | _, _ => (false, model)
  end.


End WithSelection.

(** ** An example: a two-level item in a document *)

Definition numberLevel (start : option JsNumber) : ContentModelListLevel :=
  {| listType := OL;
     format := {| startNumberOverride := start; listStyleType := None |};
     dataset := None |}.

Definition nestedItem (innermostStart : option JsNumber) : ContentModelBlockGroup :=
  Group 7 (ListItem [numberLevel None; numberLevel innermostStart] None)
    [Paragraph {| paragraphRef := 8; segments := [] |}].

Definition plainItem : ContentModelBlockGroup :=
  Group 9 (ListItem [numberLevel None] None) [].

(** A reading of [getFirstSelectedListItem] for the example: the first list
    item among the blocks of the document. *)
Definition firstListItem (model : ContentModelBlockGroup) : option ContentModelListItem :=
  head (omap (fun b => match b with BlockGroup g => asListItem g | _ => None end)
          (blocks model)).

Example setModelListStartNumber_nested :
  setModelListStartNumber firstListItem
    (Group 0 Document [Divider; BlockGroup (nestedItem None); BlockGroup plainItem]) (Num 4)
  = (true,
     Group 0 Document [Divider; BlockGroup (nestedItem (Some (Num 4))); BlockGroup plainItem]).
Proof. reflexivity. Qed.

Example setModelListStartNumber_no_list :
  setModelListStartNumber firstListItem (Group 0 Document [Divider; Table]) (Num 4)
  = (false, Group 0 Document [Divider; Table]).
Proof. reflexivity. Qed.

Example setModelListStartNumber_no_levels :
  setModelListStartNumber firstListItem
    (Group 0 Document [BlockGroup (Group 7 (ListItem [] None) [])]) (Num 4)
  = (false, Group 0 Document [BlockGroup (Group 7 (ListItem [] None) [])]).
Proof. reflexivity. Qed.

End SetModelListStartNumber.

(* ===================================================================== *)
(** * List style inference: getListStyleType *)
(* ===================================================================== *)

Module ListStyle.
Import Js ContentModel.

(** The members of the enumeration [BulletListType] that the table names. *)
Module BulletListType.
Inductive t :=
| Disc | Dash | Square | LongArrow | DoubleLongArrow | UnfilledArrow | ShortArrow | Hyphen.
#[global] Instance eq_dec : EqDecision t.
Proof. solve_decision. Defined.
End BulletListType.

(** The table [bulletListType], by member; the last key is the em dash. *)
Definition bulletListType : gmap JsString BulletListType.t :=
  list_to_map
    [ (str "*", BulletListType.Disc);
      (str "-", BulletListType.Dash);
      (str "--", BulletListType.Square);
      (str "->", BulletListType.LongArrow);
      (str "-->", BulletListType.DoubleLongArrow);
      (str "=>", BulletListType.UnfilledArrow);
      (str ">", BulletListType.ShortArrow);
      ([8212%N], BulletListType.Hyphen) ].

(** The names that an object literal inherits from [Object.prototype]. *)
Definition objectPrototypeKeys : list JsString :=
  [ str "constructor"; str "hasOwnProperty"; str "isPrototypeOf";
    str "propertyIsEnumerable"; str "toLocaleString"; str "toString"; str "valueOf";
    str "__defineGetter__"; str "__defineSetter__"; str "__lookupGetter__";
    str "__lookupSetter__"; str "__proto__" ].

(** What [styleType] can hold: a number or, when the marker is a name that the
    table inherits, the member of [Object.prototype] of that name (a function,
    or the prototype itself for [__proto__]), which is truthy and no number. *)
Inductive StyleValue :=
| StyleNumber (n : Z)
| PrototypeMember (key : JsString).

Coercion StyleNumber : Z >-> StyleValue.

(** The answer of [getListStyleType]; [index] may be absent. *)
Record ListStyleResult := {
  listType : ListType;
  styleType : StyleValue;
  index : option Z
}.

(** What [getOperationalBlocks] answers for one block. *)
Record OperationalBlocks := {
  parent : ContentModelBlockGroup;
  block : ContentModelBlock
}.

(** What [updateListMetadata] answers. *)
Record ListMetadataFormat := {
  orderedStyleType : option Z;
  unorderedStyleType : option Z
}.

Record IStandaloneEditor := {
  createContentModel : ContentModelBlockGroup
}.

(** [ToBoolean] on a number that may be [undefined]. *)
Definition truthyNumber (v : option Z) : bool :=
  match v with
  | Some z => negb (z =? 0)
  | None => false
  end.

(** [ToBoolean] on what was read from the table. *)
Definition truthyStyle (v : option StyleValue) : bool :=
  match v with
  | Some (StyleNumber z) => negb (z =? 0)
  | Some (PrototypeMember _) => true
  | None => false
  end.

(** [isBlockGroupOfType<ContentModelListItem>(item, 'ListItem')], imported: by
    its name and its use, the block is a block group of kind ListItem. *)
Definition blockAsListItem (item : ContentModelBlock) : option ContentModelListItem :=
  match item with
  | BlockGroup g => asListItem g
  | _ => None
  end.

(** The loop of [getPreviousListLevel]: from index [n - 1] down to 0, the first
    block that is a list item. *)
Fixpoint scanBackForListItem (blocks : list ContentModelBlock) (n : nat) :
    option ContentModelListItem :=
  match n with
  | O => None
  | S i =>
      match blocks !! i ≫= blockAsListItem with
      | Some item => Some item
      | None => scanBackForListItem blocks i
      end
  end.

Section WithImports.

(** The numbers of the enumeration, declared in another package. *)
Variable BulletListTypeValue : BulletListType.t -> Z.

(** Imported and not among the sources. *)
Variable getSelectedSegmentsAndParagraphs :
  ContentModelBlockGroup -> bool -> list (ContentModelSegment * option ContentModelParagraph).
Variable getOperationalBlocks :
  ContentModelBlockGroup -> list BlockGroupType.t -> list BlockGroupType.t ->
  list OperationalBlocks.
Variable getNumberingListStyle : JsString -> option JsString -> option Z -> option Z.
Variable getIndex : JsString -> option Z.
Variable updateListMetadata : ContentModelListLevel -> option ListMetadataFormat.

Definition getPreviousListLevel (model : ContentModelBlockGroup)
    (paragraph : ContentModelParagraph) : option ContentModelListItem :=
  let blocks :=
    getOperationalBlocks model [BlockGroupType.ListItem] [BlockGroupType.TableCell] in
  let listBlock :=
    head (List.filter
            (fun ob => -1 <? indexOfBy (sameParagraph paragraph) (ContentModel.blocks (parent ob)))
            blocks) in
  match listBlock with
  | Some lb =>
      scanBackForListItem (ContentModel.blocks (parent lb))
        (length (ContentModel.blocks (parent lb)))
  | None => None
  end.

(** [list?.levels[0].dataset]: an absent [list] ends the chain with
    [undefined]; a present one with no level throws on [.dataset]. *)
Definition getPreviousListStyle (list : option ContentModelListItem) :
    Completion (option Z) :=
  match list with
  | None => Returned None
  | Some item =>
      match get (levels item) 0 with
      | None => Thrown TypeError
      | Some level =>
          if bool_decide (is_Some (dataset level))
          then Returned (updateListMetadata level ≫= orderedStyleType)
          else Returned None
      end
  end.

(** [bulletListType[listMarker]]: the table's own entry for the marker, or the
    inherited member when the marker is one of the inherited names, or
    [undefined]. *)
Definition readBulletListType (listMarker : JsString) : option StyleValue :=
  match bulletListType !! listMarker with
  | Some style => Some (StyleNumber (BulletListTypeValue style))
  | None =>
      if bool_decide (listMarker ∈ objectPrototypeKeys)
      then Some (PrototypeMember listMarker)
      else None
  end.

(** The [else] branch of [getListStyleType]: the marker is no bullet. *)
Definition numberingStyle (model : ContentModelBlockGroup)
    (paragraph : ContentModelParagraph) (listMarker : JsString) :
    Completion (option ListStyleResult) :=
  let previousList := getPreviousListLevel model paragraph in
  match getPreviousListStyle previousList with
  | Thrown e => Thrown e
  | Returned previousListStyle =>
      let numberingType :=
        getNumberingListStyle listMarker
          ((previousList ≫= listItemFormat) ≫= listStyleType) previousListStyle in
      if truthyNumber numberingType
      then Returned
             (Some {| listType := OL; styleType := default 0 numberingType;
                      index := previousList ≫= fun _ => getIndex listMarker |})
      else Returned None
  end.

Definition getListStyleType (editor : IStandaloneEditor) :
    Completion (option ListStyleResult) :=
  let model := createContentModel editor in
  let selectedSegmentsAndParagraphs := getSelectedSegmentsAndParagraphs model true in
  match get selectedSegmentsAndParagraphs 0 with
  | None => Thrown TypeError
  | Some (marker, paragraph) =>
      let listMarkerSegment := paragraph ≫= fun p => get (segments p) 0 in
      match paragraph, listMarkerSegment with
      | Some paragraph, Some listMarkerSegment =>
          if bool_decide (segmentType marker = SegmentType.SelectionMarker)
             && bool_decide (segmentType listMarkerSegment = SegmentType.Text)
          then
            let listMarker := text listMarkerSegment in
            let bulletType := readBulletListType listMarker in
            if truthyStyle bulletType
            then Returned (Some {| listType := UL;
                                   styleType := default (StyleNumber 0) bulletType;
                                   index := None |})
            else numberingStyle model paragraph listMarker
          else Returned None
      | _, _ => Returned None
      end
  end.

(** ** Bullet markers *)

(** The bullet lexicon of the specification; the last marker is the em dash. *)
Definition bulletLexicon : list JsString :=
  [ str "*"; str "-"; str "--"; str "->"; str "-->"; str "=>"; str ">"; [8212%N] ].

(** The table has exactly the markers of the lexicon, each with a style of its own. *)
Lemma bulletListType_lexicon (listMarker : JsString) :
  listMarker ∈ bulletLexicon ->
  exists style, bulletListType !! listMarker = Some style
    /\ forall other, other ∈ bulletLexicon ->
         bulletListType !! other = Some style -> other = listMarker.
Proof.
  unfold bulletLexicon. rewrite !elem_of_cons, elem_of_nil.
  intros H.
  repeat (destruct H as [-> | H]); [..|done];
    (eexists; split; [vm_compute; reflexivity|];
     intros other Hother; rewrite !elem_of_cons, elem_of_nil in Hother;
     repeat (destruct Hother as [-> | Hother]); [..|done];
     vm_compute; congruence).
Qed.

(** A caret behind a leading text segment that is a key of the table with a
    truthy number: the answer is that bullet style. *)
Lemma getListStyleType_bullet (editor : IStandaloneEditor) (caret first : ContentModelSegment)
    (paragraph : ContentModelParagraph)
    (others : list (ContentModelSegment * option ContentModelParagraph))
    (style : BulletListType.t) :
  getSelectedSegmentsAndParagraphs (createContentModel editor) true
    = (caret, Some paragraph) :: others ->
  segmentType caret = SegmentType.SelectionMarker ->
  get (segments paragraph) 0 = Some first ->
  segmentType first = SegmentType.Text ->
  bulletListType !! text first = Some style ->
  BulletListTypeValue style <> 0 ->
  getListStyleType editor
  = Returned (Some {| listType := UL; styleType := BulletListTypeValue style;
                      index := None |}).
Proof.
  intros Hsel Hcaret Hfirst Htext Hstyle Hvalue.
  unfold getListStyleType. rewrite Hsel.
  change (get ((caret, Some paragraph) :: others) 0) with (Some (caret, Some paragraph)).
  simpl. rewrite Hfirst.
  rewrite (bool_decide_eq_true_2 _ Hcaret), (bool_decide_eq_true_2 _ Htext).
  simpl. unfold readBulletListType. rewrite Hstyle. simpl.
  destruct (Z.eqb_spec (BulletListTypeValue style) 0); [done|]. done.
Qed.

(** Without a caret at the start of the selection the answer is [undefined]. *)
Lemma getListStyleType_no_caret (editor : IStandaloneEditor)
    (selected : ContentModelSegment) (paragraph : option ContentModelParagraph)
    (others : list (ContentModelSegment * option ContentModelParagraph)) :
  getSelectedSegmentsAndParagraphs (createContentModel editor) true
    = (selected, paragraph) :: others ->
  segmentType selected <> SegmentType.SelectionMarker ->
  getListStyleType editor = Returned None.
Proof.
  intros Hsel Hselected. unfold getListStyleType. rewrite Hsel.
  change (get ((selected, paragraph) :: others) 0) with (Some (selected, paragraph)).
  simpl. rewrite (bool_decide_eq_false_2 _ Hselected).
  destruct paragraph as [p|]; simpl; [|done]. by destruct (get (segments p) 0).
Qed.

(** C4.  Let the numbers of the bullet styles be truthy (non-zero), the
    selection start in a paragraph, and the leading segment of that paragraph
    be a text segment whose text is a marker of the bullet lexicon.  Then the
    table gives the marker a style that no other marker of the lexicon has;
    when the selection starts with a caret (a selection marker),
    [getListStyleType] returns list type UL with the number of that style and
    no index; and in no case does it return a numbering style: the only other
    answer is [undefined], when the selection does not start with a caret. *)
Theorem getListStyleType_bullet_lexicon (editor : IStandaloneEditor)
    (selected first : ContentModelSegment) (paragraph : ContentModelParagraph)
    (others : list (ContentModelSegment * option ContentModelParagraph)) :
  (forall style, BulletListTypeValue style <> 0) ->
  getSelectedSegmentsAndParagraphs (createContentModel editor) true
    = (selected, Some paragraph) :: others ->
  get (segments paragraph) 0 = Some first ->
  segmentType first = SegmentType.Text ->
  text first ∈ bulletLexicon ->
  exists style,
    bulletListType !! text first = Some style
    /\ (forall other, other ∈ bulletLexicon ->
          bulletListType !! other = Some style -> other = text first)
    /\ (segmentType selected = SegmentType.SelectionMarker ->
        getListStyleType editor
        = Returned (Some {| listType := UL; styleType := BulletListTypeValue style;
                            index := None |}))
    /\ (segmentType selected <> SegmentType.SelectionMarker ->
        getListStyleType editor = Returned None).
Proof.
  intros Hvalue Hsel Hfirst Htext Hlex.
  destruct (bulletListType_lexicon _ Hlex) as (style & Hstyle & Hdistinct).
  exists style. split; [done|]. split; [done|]. split.
  - intros Hcaret. by eapply getListStyleType_bullet.
  - intros Hother. by eapply getListStyleType_no_caret.
Qed.

(** ** Lookups that are not absorbed *)

(** An empty selection: reading entry 0 of the first pair throws. *)
Lemma getListStyleType_empty_selection (editor : IStandaloneEditor) :
  getSelectedSegmentsAndParagraphs (createContentModel editor) true = [] ->
  getListStyleType editor = Thrown TypeError.
Proof.
  intros H. unfold getListStyleType. by rewrite H.
Qed.

(** A previous list item with no level: reading [dataset] of its first level
    throws. *)
Lemma getPreviousListStyle_no_levels (item : ContentModelListItem) :
  levels item = [] -> getPreviousListStyle (Some item) = Thrown TypeError.
Proof.
  intros H. unfold getPreviousListStyle. by rewrite H.
Qed.

(** A caret behind a leading text for which the table answers nothing truthy,
    after a list item that has lost its levels: the call throws. *)
Lemma getListStyleType_previous_item_without_levels (editor : IStandaloneEditor)
    (caret first : ContentModelSegment) (paragraph : ContentModelParagraph)
    (others : list (ContentModelSegment * option ContentModelParagraph))
    (item : ContentModelListItem) :
  getSelectedSegmentsAndParagraphs (createContentModel editor) true
    = (caret, Some paragraph) :: others ->
  segmentType caret = SegmentType.SelectionMarker ->
  get (segments paragraph) 0 = Some first ->
  segmentType first = SegmentType.Text ->
  truthyStyle (readBulletListType (text first)) = false ->
  getPreviousListLevel (createContentModel editor) paragraph = Some item ->
  levels item = [] ->
  getListStyleType editor = Thrown TypeError.
Proof.
  intros Hsel Hcaret Hfirst Htext Hbullet Hprevious Hlevels.
  unfold getListStyleType. rewrite Hsel.
  change (get ((caret, Some paragraph) :: others) 0) with (Some (caret, Some paragraph)).
  simpl. rewrite Hfirst.
  rewrite (bool_decide_eq_true_2 _ Hcaret), (bool_decide_eq_true_2 _ Htext).
  simpl. rewrite Hbullet. simpl.
  unfold numberingStyle. rewrite Hprevious.
  by rewrite (getPreviousListStyle_no_levels item Hlevels).
Qed.

End WithImports.

(** ** Examples

    Readings of the imported functions for the examples.  The styles are
    numbered from 1. *)
Definition exampleStyleNumber (style : BulletListType.t) : Z :=
  match style with
  | BulletListType.Disc => 1
  | BulletListType.Dash => 2
  | BulletListType.Square => 3
  | BulletListType.ShortArrow => 4
  | BulletListType.LongArrow => 5
  | BulletListType.UnfilledArrow => 6
  | BulletListType.Hyphen => 7
  | BulletListType.DoubleLongArrow => 8
  end.

Definition isMarker (s : ContentModelSegment) : bool :=
  bool_decide (segmentType s = SegmentType.SelectionMarker).

(** The carets in the paragraphs directly under the document. *)
Definition topLevelCarets (model : ContentModelBlockGroup) (includingFormatHolder : bool) :
    list (ContentModelSegment * option ContentModelParagraph) :=
  flat_map
    (fun b =>
       match b with
       | Paragraph p => map (fun s => (s, Some p)) (List.filter isMarker (segments p))
       | _ => []
       end)
    (blocks model).

(** The paragraphs with a caret directly under the document, with the document
    as their parent. *)
Definition topLevelOperationalBlocks (model : ContentModelBlockGroup)
    (blockGroupTypes stopTypes : list BlockGroupType.t) : list OperationalBlocks :=
  map (fun b => {| parent := model; block := b |})
    (List.filter
       (fun b => match b with Paragraph p => existsb isMarker (segments p) | _ => false end)
       (blocks model)).

(** Decimal numbering (style 1) for a marker that starts with an integer. *)
Definition decimalOnly (listMarker : JsString) (previousListStyleType : option JsString)
    (previousListStyle : option Z) : option Z :=
  match parseInt listMarker with
  | Num _ => Some 1
  | NaN => None
  end.

Definition leadingInteger (listMarker : JsString) : option Z :=
  match parseInt listMarker with
  | Num z => Some z
  | NaN => None
  end.

Definition noMetadata (level : ContentModelListLevel) : option ListMetadataFormat := None.

Definition exampleGetListStyleType : IStandaloneEditor -> Completion (option ListStyleResult) :=
  getListStyleType exampleStyleNumber topLevelCarets topLevelOperationalBlocks
    decimalOnly leadingInteger noMetadata.

Definition textSegment (s : JsString) : ContentModelSegment :=
  {| segmentType := SegmentType.Text; text := s |}.

Definition caretSegment : ContentModelSegment :=
  {| segmentType := SegmentType.SelectionMarker; text := [] |}.

(** A document whose only block is a paragraph with the typed text and the caret. *)
Definition typed (s : JsString) : IStandaloneEditor :=
  {| createContentModel :=
       Group 0 Document
         [Paragraph {| paragraphRef := 1; segments := [textSegment s; caretSegment] |}] |}.

Example getListStyleType_long_arrow :
  exampleGetListStyleType (typed (str "-->"))
  = Returned (Some {| listType := UL; styleType := 8; index := None |}).
Proof. vm_compute. reflexivity. Qed.

Example getListStyleType_em_dash :
  exampleGetListStyleType (typed [8212%N])
  = Returned (Some {| listType := UL; styleType := 7; index := None |}).
Proof. vm_compute. reflexivity. Qed.

Example getListStyleType_decimal :
  exampleGetListStyleType (typed (str "2."))
  = Returned (Some {| listType := OL; styleType := 1; index := None |}).
Proof. vm_compute. reflexivity. Qed.

Example getListStyleType_plain_text :
  exampleGetListStyleType (typed (str "hello")) = Returned None.
Proof. vm_compute. reflexivity. Qed.

(** A marker that is an inherited name: the table answers the inherited
    member, which is truthy, and the answer is a bullet list with that member
    as its style. *)
Example getListStyleType_inherited_name :
  exampleGetListStyleType (typed (str "constructor"))
  = Returned (Some {| listType := UL; styleType := PrototypeMember (str "constructor");
                      index := None |}).
Proof. vm_compute. reflexivity. Qed.

(** The caret behind ["-->"]: an instance of the bullet theorem. *)
Lemma getListStyleType_bullet_lexicon_witness :
  exampleGetListStyleType (typed (str "-->"))
  = Returned (Some {| listType := UL; styleType := 8; index := None |}).
Proof.
  destruct (getListStyleType_bullet_lexicon exampleStyleNumber topLevelCarets
              topLevelOperationalBlocks decimalOnly leadingInteger noMetadata
              (typed (str "-->")) caretSegment (textSegment (str "-->"))
              {| paragraphRef := 1; segments := [textSegment (str "-->"); caretSegment] |} [])
    as (style & Hstyle & _ & Hcaret & _).
  - intros []; vm_compute; discriminate.
  - reflexivity.
  - reflexivity.
  - reflexivity.
  - unfold bulletLexicon. simpl. do 4 apply list_elem_of_further. apply list_elem_of_here.
  - vm_compute in Hstyle. injection Hstyle as <-. apply Hcaret. reflexivity.
Defined.

(** A document with no selection, and a document in which a list item that has
    lost its levels comes before the paragraph where ["2."] was typed. *)
Definition unselected : IStandaloneEditor :=
  {| createContentModel :=
       Group 0 Document [Paragraph {| paragraphRef := 1; segments := [textSegment (str "2.")] |}] |}.

Definition afterDemotedItem : IStandaloneEditor :=
  {| createContentModel :=
       Group 0 Document
         [ BlockGroup (Group 2 (ListItem [] None)
                         [Paragraph {| paragraphRef := 3; segments := [textSegment (str "a")] |}]);
           Paragraph {| paragraphRef := 1;
                        segments := [textSegment (str "2."); caretSegment] |} ] |}.

(** C8, at two inputs the claim names: with an empty selection the read of the
    first selected pair throws, and with a preceding list item whose levels are
    empty the read of its first level's [dataset] throws.  Neither lookup is
    absorbed. *)
Theorem getListStyleType_throws :
  exampleGetListStyleType unselected = Thrown TypeError
  /\ exampleGetListStyleType afterDemotedItem = Thrown TypeError.
Proof.
  split; vm_compute; reflexivity.
Qed.

End ListStyle.

(* ===================================================================== *)
(** * The legacy list edit features *)
(* ===================================================================== *)

Module ListFeatures.
Import Js.

Inductive ListType := Ordered | Unordered.

#[global] Instance ListType_eq_dec : EqDecision ListType.
Proof. solve_decision. Defined.

Inductive ExperimentalFeatures := AutoFormatList | ReuseAllAncestorListElements.

(** ** The view: what the features read from the editor *)

Record Node := {
  nodeId : nat;
  tagName : JsString
}.

Record Range := { startContainer : Node }.

Record BlockElement := { getEndNode : Node }.

Record Region := { regionId : nat }.

Record InlineElement := { inlineId : nat }.

Record ListStyleMetadata := {
  orderedStyleType : option Z;
  unorderedStyleType : option Z
}.

(** [editor.getContentSearcherOfCursor()]. *)
Record IPositionContentSearcher := {
  getSubStringBefore : nat -> JsString;
  getNearestNonTextInlineElement : option InlineElement;
  getRangeFromText : JsString -> bool -> option Range
}.

(** [editor.getBodyTraverser(startNode)]. *)
Record IContentTraverser := {
  getPreviousBlockElement : option BlockElement
}.

(** The editor as the features query it.  A predicate and an action each read
    the editor in the state in which they run. *)
Record IEditor := {
  getElementAtCursor : JsString -> option Node -> option Node;
  isFeatureEnabled : ExperimentalFeatures -> bool;
  getContentSearcherOfCursor : IPositionContentSearcher;
  getSelectedRegions : list Region;
  getBodyTraverser : option Node -> IContentTraverser
}.

(** ** The calls an action makes on the editor, in order.

    [prepareAutoBullet] stands for the whole helper of that name; the last call
    of each callback, [searcher.getRangeFromText(text, true)?.deleteContents()],
    is the one call [deleteContents text]. *)
Inductive FormatCall :=
| prepareAutoBullet (range : Range)
| toggleBullet (listStyle : option Z) (apiNameOverride : option JsString)
| toggleNumbering (startNumber : option JsNumber) (listStyle : option Z)
    (apiNameOverride : option JsString)
| deleteContents (textBeforeCursor : JsString).

Inductive EditorCall :=
| insertContent (html : JsString)
| preventDefault
| addUndoSnapshot (callback : list FormatCall) (canUndoByBackspace : bool).

(** [getTagOfNode], imported: the tag of an element, the empty string for no
    node. *)
Definition getTagOfNode (node : option Node) : JsString :=
  from_option tagName [] node.

Definition sameString (s t : JsString) : bool := bool_decide (s = t).

(** ** isAListPattern *)

Definition digit : RegExp := CharRange 48 57.

(** [/^(\*|-|[0-9]{1,2}\.|[0-9]{1,2}\>|[0-9]{1,2}\)|[0-9]{1,2}\-|\([0-9]{1,2}\))$/] *)
Definition REGEX : RegExp :=
  Alt (Chr 42)
  (Alt (Chr 45)
  (Alt (Seq (oneOrTwo digit) (Chr 46))
  (Alt (Seq (oneOrTwo digit) (Chr 62))
  (Alt (Seq (oneOrTwo digit) (Chr 41))
  (Alt (Seq (oneOrTwo digit) (Chr 45))
       (Seq (Chr 40) (Seq (oneOrTwo digit) (Chr 41)))))))).

Definition isAListPattern (textBeforeCursor : JsString) : bool :=
  matches REGEX textBeforeCursor.

(** ** isFirstItemOfAList *)

(** [item.replace(/\(|\)|\-|\./g, '')] *)
Definition stripPunctuation (item : JsString) : JsString :=
  List.filter (fun c => negb ((c =? 40) || (c =? 41) || (c =? 45) || (c =? 46))%N) item.

(** 1, or [undefined]. *)
Definition isFirstItemOfAList (item : JsString) : option Z :=
  let number := parseInt item in
  if truthy number && bool_decide (number = Num 1) then Some 1
  else
    let letter := trim (stripPunctuation item) in
    if bool_decide (length letter = 1%nat)
       && (-1 <? indexOfBy (sameString letter) [str "i"; str "a"; str "I"; str "A"])
    then Some 1
    else None.

(** ** cacheGetListElement *)

Definition cacheGetListElement (editor : IEditor) : option (Node * Node) :=
  match getElementAtCursor editor (str "LI,TABLE") None with
  | Some li =>
      if sameString (getTagOfNode (Some li)) (str "LI") then
        match getElementAtCursor editor (str "UL,OL") (Some li) with
        | Some listElement => Some (listElement, li)
        | None => None
        end
      else None
  | None => None
  end.

Definition getPreviousListItem (editor : IEditor) (textRange : option Range) : option Node :=
  let blockElement :=
    getPreviousBlockElement (getBodyTraverser editor (startContainer <$> textRange)) in
  let previousNode := getEndNode <$> blockElement in
  if sameString (getTagOfNode previousNode) (str "LI") then previousNode else None.

(** ** Facts about the first-item check *)

Lemma elem_of_trimStart (x : N) (s : JsString) :
  x ∈ s -> isWhiteSpace x = true \/ x ∈ trimStart s.
Proof.
  induction s as [|c s IH]; simpl; [by right|].
  intros Hx. destruct (isWhiteSpace c) eqn:Hc; [|by right].
  apply elem_of_cons in Hx as [->|Hx]; [by left | by apply IH].
Qed.

Lemma elem_of_rev (x : N) (s : JsString) : x ∈ s <-> x ∈ rev s.
Proof.
  rewrite !list_elem_of_In. apply in_rev.
Qed.

Lemma elem_of_trim (x : N) (s : JsString) :
  x ∈ s -> isWhiteSpace x = true \/ x ∈ trim s.
Proof.
  intros Hx. unfold trim.
  destruct (elem_of_trimStart x s Hx) as [?|H1]; [by left|].
  apply (proj1 (elem_of_rev _ _)) in H1.
  destruct (elem_of_trimStart x _ H1) as [?|H2]; [by left|].
  right. by apply (proj1 (elem_of_rev _ _)).
Qed.

Lemma elem_of_stripPunctuation (x : N) (s : JsString) :
  x ∈ s -> x ∈ [40%N; 41%N; 45%N; 46%N] \/ x ∈ stripPunctuation s.
Proof.
  intros Hx. unfold stripPunctuation.
  destruct (negb ((x =? 40) || (x =? 41) || (x =? 45) || (x =? 46))%N) eqn:Hkeep.
  - right. apply list_elem_of_In, filter_In. split; [by apply list_elem_of_In | done].
  - left. apply negb_false_iff in Hkeep. rewrite !orb_true_iff, !N.eqb_eq in Hkeep.
    rewrite !elem_of_cons. tauto.
Qed.

Lemma trimStart_no_digit (s : JsString) :
  Forall (fun c => digitValue 10 c = None) s ->
  Forall (fun c => digitValue 10 c = None) (trimStart s).
Proof.
  induction 1 as [|c s Hc Hs IH]; simpl; [done|].
  destruct (isWhiteSpace c); [done | by constructor].
Qed.

(** A string with no decimal digit parses to NaN. *)
Lemma parseInt_no_digit (s : JsString) :
  Forall (fun c => digitValue 10 c = None) s -> parseInt s = NaN.
Proof.
  intros H. apply trimStart_no_digit in H. unfold parseInt.
  assert (Hsign : Forall (fun c => digitValue 10 c = None) (readSign (trimStart s)).2).
  { unfold readSign. destruct H as [|c t Hc Ht]; [done|].
    destruct (c =? 45)%N; [done|]. destruct (c =? 43)%N; [done|]. by constructor. }
  destruct (readSign (trimStart s)) as [sign t]. simpl in Hsign.
  assert (Hradix : readRadix t = (10, t)).
  { unfold readRadix. destruct Hsign as [|c1 t Hc1 Ht]; [done|].
    destruct t as [|c2 t]; [done|].
    destruct (N.eqb_spec c1 48) as [->|]; [discriminate | done]. }
  rewrite Hradix. destruct Hsign as [|c t Hc Ht]; [done|]. simpl. by rewrite Hc.
Qed.

Lemma isWhiteSpace_no_digit (c : N) : isWhiteSpace c = true -> digitValue 10 c = None.
Proof.
  unfold isWhiteSpace, digitValue. cbv zeta.
  rewrite !orb_true_iff, !andb_true_iff, !Z.leb_le, !Z.eqb_eq. intros Hws.
  destruct ((48 <=? Z.of_N c) && (Z.of_N c <=? 57)) eqn:H1.
  { apply andb_true_iff in H1 as [?%Z.leb_le ?%Z.leb_le]. lia. }
  destruct ((97 <=? Z.of_N c) && (Z.of_N c <=? 122)) eqn:H2.
  { apply andb_true_iff in H2 as [?%Z.leb_le ?%Z.leb_le]. lia. }
  destruct ((65 <=? Z.of_N c) && (Z.of_N c <=? 90)) eqn:H3.
  { apply andb_true_iff in H3 as [?%Z.leb_le ?%Z.leb_le]. lia. }
  done.
Qed.

(** The four letters that open a list. *)
Definition firstLetters : list JsString := [str "i"; str "a"; str "I"; str "A"].

Lemma firstLetter_index (letter : JsString) :
  bool_decide (length letter = 1%nat) && (-1 <? indexOfBy (sameString letter) firstLetters)
  = bool_decide (letter ∈ firstLetters).
Proof.
  destruct (decide (letter ∈ firstLetters)) as [Hin|Hout].
  - rewrite (bool_decide_eq_true_2 _ Hin).
    unfold firstLetters in Hin. rewrite !elem_of_cons, elem_of_nil in Hin.
    destruct Hin as [-> | [-> | [-> | [-> | []]]]]; vm_compute; reflexivity.
  - rewrite (bool_decide_eq_false_2 _ Hout). apply andb_false_iff. right.
    destruct (indexOfBy_spec (sameString letter) firstLetters)
      as [[-> _] | (k & x & _ & Hk & Hx & _)]; [done|].
    exfalso. apply Hout. apply bool_decide_eq_true in Hx. subst x.
    by eapply list_elem_of_lookup_2.
Qed.

Lemma isFirstItemOfAList_signals (item : JsString) :
  parseInt item = Num 1 \/ trim (stripPunctuation item) ∈ firstLetters ->
  isFirstItemOfAList item = Some 1.
Proof.
  unfold isFirstItemOfAList. cbv zeta. fold firstLetters. rewrite firstLetter_index.
  intros [-> | Hin]; [done|].
  rewrite (bool_decide_eq_true_2 _ Hin). by destruct (_ && _).
Qed.

(** A marker that parses to an integer other than 1 does not signal. *)
Lemma isFirstItemOfAList_other_integer (item : JsString) (n : Z) :
  parseInt item = Num n -> n <> 1 -> isFirstItemOfAList item = None.
Proof.
  intros Hn Hne. unfold isFirstItemOfAList. cbv zeta. fold firstLetters.
  rewrite firstLetter_index, Hn.
  rewrite (bool_decide_eq_false_2 (Num n = Num 1)) by congruence.
  rewrite andb_false_r.
  destruct (decide (trim (stripPunctuation item) ∈ firstLetters)) as [Hin|Hout];
    [|by rewrite (bool_decide_eq_false_2 _ Hout)].
  exfalso. assert (HNaN : parseInt item = NaN); [|congruence].
  apply parseInt_no_digit, Forall_forall. intros x Hx.
  destruct (elem_of_stripPunctuation x item Hx) as [Hp|Hs].
  { rewrite !elem_of_cons, elem_of_nil in Hp.
    destruct Hp as [-> | [-> | [-> | [-> | []]]]]; reflexivity. }
  destruct (elem_of_trim x _ Hs) as [Hw|Ht]; [by apply isWhiteSpace_no_digit|].
  unfold firstLetters in Hin. rewrite !elem_of_cons, elem_of_nil in Hin.
  destruct Hin as [E | [E | [E | [E | []]]]]; rewrite E in Ht;
    apply list_elem_of_singleton in Ht; subst x; reflexivity.
Qed.

Section WithImports.

(** Imported and not among the sources. *)
Variable VListChain : Type.
Variable createListChains : list Region -> list VListChain.
Variable findClosestElementAncestor : Node -> JsString -> option Node.
Variable getMetadata : Node -> option ListStyleMetadata.
Variable getAutoBulletListStyle :
  JsString -> option (list VListChain) -> option Z -> option Z.
Variable getAutoNumberingListStyle :
  JsString -> option (list VListChain) -> option Z -> option Z.

Definition getListChains (editor : IEditor) : list VListChain :=
  createListChains (getSelectedRegions editor).

Definition getPreviousListType (editor : IEditor) (textRange : option Range)
    (listType : ListType) : option Z :=
  let listItem := getPreviousListItem editor textRange in
  let list :=
    listItem ≫= fun li =>
      findClosestElementAncestor li
        (if bool_decide (listType = Ordered) then str "ol" else str "ul") in
  let metadata := list ≫= getMetadata in
  metadata ≫=
    (if bool_decide (listType = Ordered) then orderedStyleType else unorderedStyleType).

(** [ToBoolean] on a number that may be [null] or [undefined]. *)
Definition truthyNumber (v : option Z) : bool :=
  match v with
  | Some z => negb (z =? 0)
  | None => false
  end.

(** [previousListType === listStyle]; read only where [previousListType] is a
    truthy number. *)
Definition strictEqual (a b : option Z) : bool :=
  match a, b with
  | Some x, Some y => x =? y
  | _, _ => false
  end.

Definition shouldTriggerList (editor : IEditor)
    (getListStyle : JsString -> option (list VListChain) -> option Z -> option Z)
    (listType : ListType) : bool :=
  let searcher := getContentSearcherOfCursor editor in
  let textBeforeCursor := getSubStringBefore searcher 4 in
  let itHasSpace := hasWhiteSpace textBeforeCursor in
  let listChains := getListChains editor in
  let textRange := getRangeFromText searcher textBeforeCursor true in
  let previousListType := getPreviousListType editor textRange listType in
  let isFirstItem := isFirstItemOfAList textBeforeCursor in
  let listStyle := getListStyle textBeforeCursor (Some listChains) previousListType in
  let shouldTriggerNewListStyle :=
    truthyNumber isFirstItem
    || negb (truthyNumber previousListType)
    || strictEqual previousListType listStyle
    || bool_decide (listType = Unordered) in
  negb itHasSpace
  && negb (bool_decide (is_Some (getNearestNonTextInlineElement searcher)))
  && truthyNumber listStyle
  && shouldTriggerNewListStyle.

(** ** AutoBullet *)

Definition AutoBullet_shouldHandleEvent (editor : IEditor) : bool :=
  if negb (bool_decide (is_Some (cacheGetListElement editor)))
     && negb (isFeatureEnabled editor AutoFormatList)
  then
    let searcher := getContentSearcherOfCursor editor in
    let textBeforeCursor := getSubStringBefore searcher 4 in
    isAListPattern textBeforeCursor
    && negb (bool_decide (is_Some (getNearestNonTextInlineElement searcher)))
  else false.

(** The callback given to [addUndoSnapshot]. *)
Definition AutoBullet_callback (editor : IEditor) : list FormatCall :=
  let searcher := getContentSearcherOfCursor editor in
  let textBeforeCursor := getSubStringBefore searcher 4 in
  let textRange := getRangeFromText searcher textBeforeCursor true in
  match textRange with
  | None => []
  | Some textRange =>
      if (indexOfChar 42 textBeforeCursor =? 0) || (indexOfChar 45 textBeforeCursor =? 0)
      then [prepareAutoBullet textRange; toggleBullet None None]
      else if isAListPattern textBeforeCursor
      then [prepareAutoBullet textRange; toggleNumbering None None None]
      else if bool_decide (length (getSelectedRegions editor) = 1%nat)
      then [prepareAutoBullet textRange;
            toggleNumbering (Some (parseInt textBeforeCursor)) None None]
      else []
  end
  ++ [deleteContents textBeforeCursor].

Definition AutoBullet_handleEvent (editor : IEditor) : list EditorCall :=
  [insertContent (str "&nbsp;"); preventDefault;
   addUndoSnapshot (AutoBullet_callback editor) true].

(** ** AutoBulletList *)

Definition AutoBulletList_shouldHandleEvent (editor : IEditor) : bool :=
  if negb (bool_decide (is_Some (cacheGetListElement editor)))
     && isFeatureEnabled editor AutoFormatList
  then shouldTriggerList editor getAutoBulletListStyle Unordered
  else false.

Definition AutoBulletList_callback (editor : IEditor) : list FormatCall :=
  let searcher := getContentSearcherOfCursor editor in
  let textBeforeCursor := getSubStringBefore searcher 5 in
  let textRange := getRangeFromText searcher textBeforeCursor true in
  let listStyle := getAutoBulletListStyle textBeforeCursor None None in
  match textRange with
  | Some textRange =>
      [prepareAutoBullet textRange; toggleBullet listStyle (Some (str "autoToggleList"))]
  | None => []
  end
  ++ [deleteContents textBeforeCursor].

Definition AutoBulletList_handleEvent (editor : IEditor) : list EditorCall :=
  [insertContent (str "&nbsp;"); preventDefault;
   addUndoSnapshot (AutoBulletList_callback editor) true].

(** ** AutoNumberingList *)

Definition AutoNumberingList_shouldHandleEvent (editor : IEditor) : bool :=
  if negb (bool_decide (is_Some (cacheGetListElement editor)))
     && isFeatureEnabled editor AutoFormatList
  then shouldTriggerList editor getAutoNumberingListStyle Ordered
  else false.

Definition AutoNumberingList_callback (editor : IEditor) : list FormatCall :=
  let searcher := getContentSearcherOfCursor editor in
  let textBeforeCursor := getSubStringBefore searcher 5 in
  let textRange := getRangeFromText searcher textBeforeCursor true in
  match textRange with
  | Some textRange =>
      let number :=
        if truthyNumber (isFirstItemOfAList textBeforeCursor) then Num 1
        else parseInt textBeforeCursor in
      let isLi := getPreviousListItem editor (Some textRange) in
      let listStyle := getAutoNumberingListStyle textBeforeCursor None None in
      [prepareAutoBullet textRange;
       toggleNumbering
         (if bool_decide (is_Some isLi) && bool_decide (number <> Num 1)
          then None else Some number)
         listStyle (Some (str "autoToggleList"))]
  | None => []
  end
  ++ [deleteContents textBeforeCursor].

Definition AutoNumberingList_handleEvent (editor : IEditor) : list EditorCall :=
  [insertContent (str "&nbsp;"); preventDefault;
   addUndoSnapshot (AutoNumberingList_callback editor) true].

(** ** The actions *)

(** C5, amended.  Let the action read [text] before the cursor and find its
    range.  If [text] parses to the integer 1, or is a lone i, a, I or A once
    its parentheses, hyphens and dots are removed and it is trimmed, the
    first-item check signals a new sequence and the action passes start number
    1, whatever precedes.  If [text] parses to another integer [n], the check
    does not signal, and the action passes [n] as the explicit start number
    when the previous block does not end in a list item, and no start number
    when it does. *)
Theorem AutoNumberingList_start_number (editor : IEditor) (text : JsString) (range : Range) :
  getSubStringBefore (getContentSearcherOfCursor editor) 5 = text ->
  getRangeFromText (getContentSearcherOfCursor editor) text true = Some range ->
  let action startNumber :=
    [insertContent (str "&nbsp;"); preventDefault;
     addUndoSnapshot
       [prepareAutoBullet range;
        toggleNumbering startNumber (getAutoNumberingListStyle text None None)
          (Some (str "autoToggleList"));
        deleteContents text]
       true] in
  (parseInt text = Num 1 \/ trim (stripPunctuation text) ∈ firstLetters ->
     isFirstItemOfAList text = Some 1
     /\ AutoNumberingList_handleEvent editor = action (Some (Num 1)))
  /\ (forall n : Z, parseInt text = Num n -> n <> 1 ->
        isFirstItemOfAList text = None
        /\ AutoNumberingList_handleEvent editor
           = action (match getPreviousListItem editor (Some range) with
                     | Some _ => None
                     | None => Some (Num n)
                     end)).
Proof using Type.
  intros Htext Hrange action. subst action.
  unfold AutoNumberingList_handleEvent, AutoNumberingList_callback. cbv zeta.
  rewrite Htext, Hrange. split.
  - intros Hfirst. apply isFirstItemOfAList_signals in Hfirst. rewrite Hfirst.
    split; [done|]. simpl. by rewrite andb_false_r.
  - intros n Hn Hne. rewrite (isFirstItemOfAList_other_integer text n Hn Hne).
    split; [done|]. simpl. rewrite Hn.
    rewrite (bool_decide_eq_true_2 (Num n <> Num 1)) by congruence.
    rewrite andb_true_r. by destruct (getPreviousListItem editor (Some range)).
Qed.

(** The branches of the action, by the [text] that it reads before the cursor
    once it has inserted the no-break space, and of which it finds the range.
    If [text] starts with [*] or [-], the action prepares the block and toggles
    a bullet list.  Otherwise, if [text] matches the list pattern, it toggles a
    numbered list and passes no start number.  Otherwise, if exactly one region
    is selected, it toggles a numbered list and passes [parseInt text] as the
    start number.  In each case the text is deleted afterwards.  (A text that
    ends in the inserted no-break space does not match the pattern, so after a
    marker of digits it is the last branch that runs.) *)
Lemma AutoBullet_action (editor : IEditor) (text : JsString) (range : Range) :
  getSubStringBefore (getContentSearcherOfCursor editor) 4 = text ->
  getRangeFromText (getContentSearcherOfCursor editor) text true = Some range ->
  let action calls :=
    [insertContent (str "&nbsp;"); preventDefault;
     addUndoSnapshot ([prepareAutoBullet range] ++ calls ++ [deleteContents text]) true] in
  let startsWithBullet := indexOfChar 42 text = 0 \/ indexOfChar 45 text = 0 in
  (startsWithBullet -> AutoBullet_handleEvent editor = action [toggleBullet None None])
  /\ (text = str "*" \/ text = str "-" -> startsWithBullet)
  /\ (~ startsWithBullet -> isAListPattern text = true ->
      AutoBullet_handleEvent editor = action [toggleNumbering None None None])
  /\ (~ startsWithBullet -> isAListPattern text = false ->
      length (getSelectedRegions editor) = 1%nat ->
      AutoBullet_handleEvent editor
      = action [toggleNumbering (Some (parseInt text)) None None]).
Proof.
  intros Htext Hrange action startsWithBullet. subst action startsWithBullet.
  unfold AutoBullet_handleEvent, AutoBullet_callback. cbv zeta.
  rewrite Htext, Hrange.
  assert (Hstarts : (indexOfChar 42 text =? 0) || (indexOfChar 45 text =? 0) = true
                    <-> indexOfChar 42 text = 0 \/ indexOfChar 45 text = 0).
  { by rewrite orb_true_iff, !Z.eqb_eq. }
  split; [|split; [|split]].
  - intros H. apply Hstarts in H. by rewrite H.
  - intros [-> | ->]; [by left | by right].
  - intros H Hpattern. rewrite <- Hstarts in H. apply not_true_is_false in H.
    by rewrite H, Hpattern.
  - intros H Hpattern Hone. rewrite <- Hstarts in H. apply not_true_is_false in H.
    by rewrite H, Hpattern, (bool_decide_eq_true_2 _ Hone).
Qed.

(** ** The predicates of the experimental features *)

Lemma truthyNumber_strictEqual (a b : option Z) :
  truthyNumber b = true -> (strictEqual a b = true <-> a = b).
Proof.
  destruct b as [y|]; [|done]. intros _. destruct a as [x|]; simpl; [|done].
  rewrite Z.eqb_eq. split; congruence.
Qed.

(** C7, amended.  Let [text] be the last up-to-4 characters before the cursor.
    The auto-bullet-list predicate answers true exactly when the AutoFormatList
    feature is enabled, the cursor is not in a list item of a list, [text] has
    no white space, no non-text inline element precedes the cursor, and the
    style inferred from [text] is truthy; the auto-numbering-list predicate
    asks in addition that [text] be a first-item marker, or that the previous
    list have no recorded style, or that its style be the inferred one. *)
Theorem experimental_predicates_fire_exactly_when (editor : IEditor) :
  let searcher := getContentSearcherOfCursor editor in
  let text := getSubStringBefore searcher 4 in
  let previousListType :=
    getPreviousListType editor (getRangeFromText searcher text true) in
  let listStyle getListStyle listType :=
    getListStyle text (Some (getListChains editor)) (previousListType listType) in
  let common getListStyle listType :=
    isFeatureEnabled editor AutoFormatList = true
    /\ cacheGetListElement editor = None
    /\ hasWhiteSpace text = false
    /\ getNearestNonTextInlineElement searcher = None
    /\ truthyNumber (listStyle getListStyle listType) = true in
  (AutoBulletList_shouldHandleEvent editor = true
   <-> common getAutoBulletListStyle Unordered)
  /\ (AutoNumberingList_shouldHandleEvent editor = true
      <-> common getAutoNumberingListStyle Ordered
          /\ (isFirstItemOfAList text = Some 1
              \/ truthyNumber (previousListType Ordered) = false
              \/ previousListType Ordered = listStyle getAutoNumberingListStyle Ordered)).
Proof.
  intros searcher text previousListType listStyle common.
  subst common listStyle previousListType text searcher.
  unfold AutoBulletList_shouldHandleEvent, AutoNumberingList_shouldHandleEvent,
    shouldTriggerList.
  cbv zeta.
  set (searcher := getContentSearcherOfCursor editor).
  set (text := getSubStringBefore searcher 4).
  assert (Hnone : forall A (o : option A),
            negb (bool_decide (is_Some o)) = true <-> o = None).
  { by intros A [a|]; simpl. }
  assert (Hfirst : truthyNumber (isFirstItemOfAList text) = true
                   <-> isFirstItemOfAList text = Some 1).
  { unfold isFirstItemOfAList. cbv zeta. by repeat destruct (_ && _). }
  split.
  - destruct (isFeatureEnabled editor AutoFormatList);
      [|rewrite andb_false_r; split; [done | by intros [? _]]].
    rewrite andb_true_r.
    destruct (negb (bool_decide (is_Some (cacheGetListElement editor)))) eqn:Hlist.
    + apply Hnone in Hlist.
      rewrite (bool_decide_eq_true_2 (Unordered = Unordered)) by done.
      rewrite orb_true_r, andb_true_r, !andb_true_iff, Hnone, negb_true_iff. tauto.
    + split; [done|]. intros (_ & Hl & _). apply Hnone in Hl. congruence.
  - destruct (isFeatureEnabled editor AutoFormatList);
      [|rewrite andb_false_r; split; [done | by intros [[? _] _]]].
    rewrite andb_true_r.
    destruct (negb (bool_decide (is_Some (cacheGetListElement editor)))) eqn:Hlist.
    + apply Hnone in Hlist.
      rewrite (bool_decide_eq_false_2 (Ordered = Unordered)) by done.
      rewrite orb_false_r, !andb_true_iff, !orb_true_iff, Hnone, !negb_true_iff, Hfirst.
      split.
      * intros [[[Hws Hinline] Hstyle] Hgate].
        split; [done|]. rewrite <- (truthyNumber_strictEqual _ _ Hstyle). tauto.
      * intros [(_ & _ & Hws & Hinline & Hstyle) Hgate].
        rewrite <- (truthyNumber_strictEqual _ _ Hstyle) in Hgate. tauto.
    + split; [done|]. intros [(_ & Hl & _) _]. apply Hnone in Hl. congruence.
Qed.

End WithImports.

(** ** Examples

    An editor with the caret in a plain block behind [typedText]: the searcher
    answers the last characters of [typedText] and finds a range for whatever
    text it is asked; the block before ends in [previousEnd]; one region is
    selected. *)
Definition lastChars (n : nat) (s : JsString) : JsString :=
  drop (length s - n) s.

Definition liNode : Node := {| nodeId := 1; tagName := str "LI" |}.
Definition olNode : Node := {| nodeId := 2; tagName := str "OL" |}.
Definition divNode : Node := {| nodeId := 3; tagName := str "DIV" |}.
Definition typedRange : Range := {| startContainer := divNode |}.

Definition plainEditor (typedText : JsString) (previousEnd : option Node)
    (autoFormatList : bool) : IEditor :=
  {| getElementAtCursor := fun _ _ => None;
     isFeatureEnabled :=
       fun feature =>
         match feature with
         | AutoFormatList => autoFormatList
         | ReuseAllAncestorListElements => false
         end;
     getContentSearcherOfCursor :=
       {| getSubStringBefore := fun n => lastChars n typedText;
          getNearestNonTextInlineElement := None;
          getRangeFromText := fun _ _ => Some typedRange |};
     getSelectedRegions := [ {| regionId := 0 |} ];
     getBodyTraverser :=
       fun _ => {| getPreviousBlockElement :=
                     (fun node => {| getEndNode := node |}) <$> previousEnd |} |}.

(** Readings of the imported functions for the examples: no list chains; a
    list item lies in an ordered list whose recorded style is 3; a marker that
    starts with an integer infers style 1. *)
Definition noChains (regions : list Region) : list unit := [].

Definition inOrderedList (node : Node) (tag : JsString) : option Node :=
  if sameString tag (str "ol") then Some olNode else None.

Definition styleThree (node : Node) : option ListStyleMetadata :=
  Some {| orderedStyleType := Some 3; unorderedStyleType := None |}.

Definition decimalStyle (text : JsString) (chains : option (list unit))
    (previousListStyle : option Z) : option Z :=
  match parseInt text with
  | Num _ => Some 1
  | NaN => None
  end.

Definition discStyle (text : JsString) (chains : option (list unit))
    (previousListStyle : option Z) : option Z :=
  if sameString text (str "*") then Some 1 else None.

Example isAListPattern_examples :
  map isAListPattern
    [str "*"; str "-"; str "1."; str "12)"; str "3>"; str "4-"; str "(5)"; str "(12)";
     str "123."; str "1"; str "(1"; str "a."; str "--"; str "1." ++ [160%N]]
  = [true; true; true; true; true; true; true; true;
     false; false; false; false; false; false].
Proof. vm_compute. reflexivity. Qed.

Example parseInt_examples :
  map parseInt [str "1."; str "12)"; str "(1)"; str " 7-"; str "-3"; str "0x1f"; str "a."; str ""]
  = [Num 1; Num 12; NaN; Num 7; Num (-3); Num 31; NaN; NaN].
Proof. vm_compute. reflexivity. Qed.

Example isFirstItemOfAList_examples :
  map isFirstItemOfAList
    [str "1."; str "1)"; str "i."; str "(a)"; str "A-"; str "I"; str "2."; str "b."; str "a>";
     str "1." ++ [160%N]]
  = [Some 1; Some 1; Some 1; Some 1; Some 1; Some 1; None; None; None; Some 1].
Proof. vm_compute. reflexivity. Qed.

(** A parenthesised 1 is not recognised: [parseInt] stops at the parenthesis,
    and the text without punctuation is no letter. *)
Example isFirstItemOfAList_parenthesised_one :
  isFirstItemOfAList (str "(1)") = None /\ parseInt (str "(1)") = NaN.
Proof. vm_compute. done. Qed.

(** The claim's second half fails where the previous block ends in a list
    item: ["3."] is typed there, and no start number is passed. *)
Lemma AutoNumberingList_parsed_integer_counterexample :
  ~ (forall (getAutoNumberingListStyle : JsString -> option (list unit) -> option Z -> option Z)
       (editor : IEditor) (text : JsString) (range : Range) (n : Z),
       getSubStringBefore (getContentSearcherOfCursor editor) 5 = text ->
       getRangeFromText (getContentSearcherOfCursor editor) text true = Some range ->
       parseInt text = Num n -> n <> 1 ->
       exists listStyle apiName,
         In (toggleNumbering (Some (Num n)) listStyle apiName)
           (AutoNumberingList_callback unit getAutoNumberingListStyle editor)).
Proof.
  intros H.
  destruct (H decimalStyle (plainEditor (str "3.") (Some liNode) true) (str "3.") typedRange 3
              eq_refl eq_refl eq_refl ltac:(lia)) as (listStyle & apiName & Hin).
  vm_compute in Hin. destruct Hin as [Hin | [Hin | [Hin | []]]]; discriminate.
Qed.

(** ["1."] before a list item and ["i)"] after one start at 1; ["3."] with no
    list item before starts at 3, and after a list item passes no start. *)
Lemma AutoNumberingList_start_number_witness :
  (isFirstItemOfAList (str "1.") = Some 1
   /\ AutoNumberingList_handleEvent unit decimalStyle (plainEditor (str "1.") (Some liNode) true)
      = [insertContent (str "&nbsp;"); preventDefault;
         addUndoSnapshot
           [prepareAutoBullet typedRange;
            toggleNumbering (Some (Num 1)) (Some 1) (Some (str "autoToggleList"));
            deleteContents (str "1.")]
           true])
  /\ (isFirstItemOfAList (str "3.") = None
      /\ AutoNumberingList_handleEvent unit decimalStyle (plainEditor (str "3.") None true)
         = [insertContent (str "&nbsp;"); preventDefault;
            addUndoSnapshot
              [prepareAutoBullet typedRange;
               toggleNumbering (Some (Num 3)) (Some 1) (Some (str "autoToggleList"));
               deleteContents (str "3.")]
              true]).
Proof.
  split.
  - apply (proj1 (AutoNumberingList_start_number unit decimalStyle
                    (plainEditor (str "1.") (Some liNode) true) (str "1.") typedRange
                    eq_refl eq_refl)).
    left. reflexivity.
  - apply (proj2 (AutoNumberingList_start_number unit decimalStyle
                    (plainEditor (str "3.") None true) (str "3.") typedRange
                    eq_refl eq_refl) 3); [reflexivity | lia].
Defined.

(** The action on the texts it reads after [*] and [12.] were typed and the
    no-break space was inserted: a bullet list, and a numbered list that starts
    at 12. *)
Example AutoBullet_handleEvent_examples :
  AutoBullet_handleEvent (plainEditor (str "*" ++ [160%N]) None false)
  = [insertContent (str "&nbsp;"); preventDefault;
     addUndoSnapshot
       [prepareAutoBullet typedRange; toggleBullet None None;
        deleteContents (str "*" ++ [160%N])] true]
  /\ AutoBullet_handleEvent (plainEditor (str "12." ++ [160%N]) None false)
     = [insertContent (str "&nbsp;"); preventDefault;
        addUndoSnapshot
          [prepareAutoBullet typedRange; toggleNumbering (Some (Num 12)) None None;
           deleteContents (str "12." ++ [160%N])] true].
Proof. vm_compute. done. Qed.

(** The claim fails for the numbering predicate: ["2."] is typed after a list
    whose recorded style (3) is not the inferred one (1).  Every condition the
    claim names holds, and the predicate answers false. *)
Lemma AutoNumberingList_predicate_counterexample :
  ~ (forall (VListChain : Type) (createListChains : list Region -> list VListChain)
       (findClosestElementAncestor : Node -> JsString -> option Node)
       (getMetadata : Node -> option ListStyleMetadata)
       (getAutoNumberingListStyle :
          JsString -> option (list VListChain) -> option Z -> option Z)
       (editor : IEditor),
       AutoNumberingList_shouldHandleEvent VListChain createListChains
         findClosestElementAncestor getMetadata getAutoNumberingListStyle editor = true
       <-> (let searcher := getContentSearcherOfCursor editor in
            let text := getSubStringBefore searcher 5 in
            truthyNumber
              (getAutoNumberingListStyle text
                 (Some (getListChains VListChain createListChains editor))
                 (getPreviousListType findClosestElementAncestor getMetadata editor
                    (getRangeFromText searcher text true) Ordered)) = true
            /\ hasWhiteSpace text = false
            /\ getNearestNonTextInlineElement searcher = None
            /\ cacheGetListElement editor = None)).
Proof.
  intros H.
  destruct (H unit noChains inOrderedList styleThree decimalStyle
              (plainEditor (str "2.") (Some liNode) true)) as [_ Hback].
  assert (Hfires : AutoNumberingList_shouldHandleEvent unit noChains inOrderedList styleThree
                     decimalStyle (plainEditor (str "2.") (Some liNode) true) = true).
  { apply Hback. vm_compute. done. }
  vm_compute in Hfires. discriminate.
Qed.

(** The legacy predicate fires on a matching text when the experimental
    feature is off. *)
Example AutoBullet_shouldHandleEvent_examples :
  map AutoBullet_shouldHandleEvent
    [plainEditor (str "1.") None false; plainEditor (str "(2)") None false;
     plainEditor (str "1.") None true; plainEditor (str "hello") None false]
  = [true; true; false; false].
Proof. vm_compute. reflexivity. Qed.

(** The experimental predicates on some typed texts. *)
Example experimental_predicates_examples :
  AutoBulletList_shouldHandleEvent unit noChains inOrderedList styleThree discStyle
    (plainEditor (str "*") None true) = true
  /\ AutoBulletList_shouldHandleEvent unit noChains inOrderedList styleThree discStyle
       (plainEditor (str "*") None false) = false
  /\ AutoNumberingList_shouldHandleEvent unit noChains inOrderedList styleThree decimalStyle
       (plainEditor (str "1.") (Some liNode) true) = true
  /\ AutoNumberingList_shouldHandleEvent unit noChains inOrderedList styleThree decimalStyle
       (plainEditor (str "2.") None true) = true
  /\ AutoNumberingList_shouldHandleEvent unit noChains inOrderedList styleThree decimalStyle
       (plainEditor (str "2.") (Some liNode) true) = false
  /\ AutoNumberingList_shouldHandleEvent unit noChains inOrderedList styleThree decimalStyle
       (plainEditor (str "a 2.") None true) = false.
Proof. vm_compute. done. Qed.

End ListFeatures.

(* ===================================================================== *)
(** * List chains *)
(* ===================================================================== *)

Module ListChain.
Import Js ContentModel.

(** One list of a chain: its items in document order, each item by its levels,
    the outermost first. *)
Abbreviation ChainMember := (list (list ContentModelListLevel)).

Definition itemCount (member : ChainMember) : Z := Z.of_nat (length member).

(** The start-number override a list carries: that of the first level of its
    first item. *)
Definition startOverride (member : ChainMember) : option JsNumber :=
  (head member ≫= head) ≫= fun level => startNumberOverride (format level).

(** The override is written to the first level of the first item only. *)
Definition setStartOverride (start : Z) (member : ChainMember) : ChainMember :=
  match member with
  | (level :: deeper) :: items =>
      (SetModelListStartNumber.withStartNumberOverride (Num start) level :: deeper) :: items
  | _ => member
  end.

(** The lists after the first of a chain, [earlier] items having come before. *)
Fixpoint renumberFrom (earlier : Z) (members : list ChainMember) : list ChainMember :=
  match members with
  | [] => []
  | member :: rest =>
      setStartOverride (1 + earlier) member :: renumberFrom (earlier + itemCount member) rest
  end.

(** Modelled from the spec: [commitListChains] and [VListChain] are imported by
    the edit features and not among the sources.  A chain is a run of lists of
    one kind; committing it makes the second and every later list begin at 1
    plus the number of items of all earlier lists of the chain, and writes that
    override to the first level of the first item of the list.  The first list
    is left as it is. *)
Definition commitChain (chain : list ChainMember) : list ChainMember :=
  match chain with
  | [] => []
  | first :: rest => first :: renumberFrom (itemCount first) rest
  end.

Definition commitChains (chains : list (list ChainMember)) : list (list ChainMember) :=
  map commitChain chains.

(** The number of items of the lists before index [i]. *)
Definition itemsBefore (chain : list ChainMember) (i : nat) : Z :=
  foldr Z.add 0 (map itemCount (take i chain)).

Lemma itemCount_setStartOverride (start : Z) (member : ChainMember) :
  itemCount (setStartOverride start member) = itemCount member.
Proof.
  by destruct member as [|[|level deeper] items].
Qed.

Lemma setStartOverride_twice (start : Z) (member : ChainMember) :
  setStartOverride start (setStartOverride start member) = setStartOverride start member.
Proof.
  by destruct member as [|[|level deeper] items].
Qed.

Lemma renumberFrom_lookup (members : list ChainMember) (earlier : Z) (i : nat)
    (member : ChainMember) :
  members !! i = Some member ->
  renumberFrom earlier members !! i
  = Some (setStartOverride (1 + (earlier + itemsBefore members i)) member).
Proof.
  revert earlier i. induction members as [|m members IH]; intros earlier i; [done|].
  destruct i as [|i]; simpl.
  - intros [= ->]. unfold itemsBefore. simpl. do 2 f_equal. lia.
  - intros H. rewrite (IH _ _ H). unfold itemsBefore. simpl. do 2 f_equal. lia.
Qed.

Lemma renumberFrom_twice (members : list ChainMember) (earlier : Z) :
  renumberFrom earlier (renumberFrom earlier members) = renumberFrom earlier members.
Proof.
  revert earlier. induction members as [|m members IH]; intros earlier; simpl; [done|].
  by rewrite setStartOverride_twice, itemCount_setStartOverride, IH.
Qed.

(** C3.  In a committed chain, every list after the first is the list it was,
    with the override of the first level of its first item set to 1 plus the
    number of items of all earlier lists of the chain (when the list has a
    first item with a level, that is the override it carries); the first list
    is unchanged; committing a second time changes nothing; and a chain of one
    list is left as it is. *)
Theorem commitChain_renumbers (chain : list ChainMember) :
  (forall (i : nat) (member : ChainMember),
     chain !! S i = Some member ->
     commitChain chain !! S i
     = Some (setStartOverride (1 + itemsBefore chain (S i)) member)
     /\ (forall level deeper items,
           member = (level :: deeper) :: items ->
           exists level',
             commitChain chain !! S i = Some ((level' :: deeper) :: items)
             /\ startNumberOverride (format level') = Some (Num (1 + itemsBefore chain (S i)))
             /\ listStyleType (format level') = listStyleType (format level)
             /\ listType level' = listType level
             /\ dataset level' = dataset level))
  /\ commitChain chain !! 0%nat = chain !! 0%nat
  /\ commitChain (commitChain chain) = commitChain chain
  /\ (forall only, chain = [only] -> commitChain chain = chain).
Proof.
  split; [|split; [|split]].
  - intros i member Hi. destruct chain as [|first rest]; [done|]. simpl in Hi.
    assert (Hlook : commitChain (first :: rest) !! S i
                    = Some (setStartOverride (1 + itemsBefore (first :: rest) (S i)) member)).
    { simpl. rewrite (renumberFrom_lookup _ _ _ _ Hi). unfold itemsBefore. simpl.
      done. }
    split; [done|]. intros level deeper items ->. rewrite Hlook. simpl.
    eexists. split; [done|]. done.
  - by destruct chain.
  - destruct chain as [|first rest]; simpl; [done|]. by rewrite renumberFrom_twice.
  - by intros only ->.
Qed.

(** Every chain is committed on its own. *)
Lemma commitChains_lookup (chains : list (list ChainMember)) (k : nat) :
  commitChains chains !! k = commitChain <$> chains !! k.
Proof.
  apply list_lookup_fmap.
Qed.

(** The specification's example: lists of 2, 3 and 1 items. *)
Definition plainLevel : ContentModelListLevel :=
  {| listType := OL;
     format := {| startNumberOverride := None; listStyleType := None |};
     dataset := None |}.

Definition listOf (n : nat) : ChainMember := replicate n [plainLevel].

Example commitChain_two_three_one :
  map startOverride (commitChain [listOf 2; listOf 3; listOf 1])
  = [None; Some (Num 3); Some (Num 6)]
  /\ commitChain (commitChain [listOf 2; listOf 3; listOf 1])
     = commitChain [listOf 2; listOf 3; listOf 1]
  /\ map (length : ChainMember -> nat) (commitChain [listOf 2; listOf 3; listOf 1])
     = [2; 3; 1]%nat.
Proof. vm_compute. done. Qed.

End ListChain.

(* ===================================================================== *)
(** * More about deleteEmptyList.ts *)
(* ===================================================================== *)

Module DeleteEmptyListFacts.
Import Js ContentModel DeleteEmptyList.

(** The paragraphs of a block, through its block groups. *)
Fixpoint paragraphsIn (block : ContentModelBlock) : list ContentModelParagraph :=
  match block with
  | Paragraph p => [p]
  | BlockGroup (Group _ _ bs) => flat_map paragraphsIn bs
  | _ => []
  end.

Definition onlyLineBreaks (p : ContentModelParagraph) : Prop :=
  Forall (fun segment => segmentType segment = SegmentType.Br) (segments p).

Lemma isEmptyParagraph_onlyLineBreaks (p : ContentModelParagraph) :
  isEmptyPresentBlock (Paragraph p) = true <-> onlyLineBreaks p.
Proof.
  unfold onlyLineBreaks. simpl. rewrite forallb_forall, Forall_forall. split.
  - intros H segment Hin. apply list_elem_of_In, H in Hin.
    apply andb_true_iff in Hin as [_ Hbr]. by apply bool_decide_eq_true in Hbr.
  - intros H segment Hin. apply list_elem_of_In, H in Hin. by rewrite Hin.
Qed.

(** X1.  [isEmptyBlock] answers true on a block exactly when every paragraph
    in it, at any depth of block groups, holds line breaks only.  Tables,
    dividers and entities never make a block non-empty, and a block group
    with no paragraph in it is empty. *)
Theorem isEmptyBlock_leaf_paragraphs (block : ContentModelBlock) :
  isEmptyBlock (Some block) = true
  <-> Forall onlyLineBreaks (paragraphsIn block).
Proof.
  simpl. revert block. fix IH 1. intros [p|[r d bs]| | |].
  - rewrite isEmptyParagraph_onlyLineBreaks. simpl. rewrite Forall_singleton. done.
  - simpl. revert bs. fix IHbs 1. intros [|b bs]; simpl.
    + split; [constructor | done].
    + rewrite andb_true_iff, Forall_app, (IH b), (IHbs bs). done.
  - simpl. split; [constructor | done].
  - simpl. split; [constructor | done].
  - simpl. split; [constructor | done].
Qed.


(** ** Two readings of a recursively empty block *)



(** ** The write and what the call reads *)

Lemma blockGroupType_writeLevels (target : Ref) (lv : list ContentModelListLevel)
    (g : ContentModelBlockGroup) :
  blockGroupType (writeLevels target lv g) = blockGroupType g.
Proof.
  destruct g as [r d bs]. unfold blockGroupType. simpl.
  destruct (decide (r = target)); [|done]. by destruct d.
Qed.

Lemma ref_writeLevels (target : Ref) (lv : list ContentModelListLevel)
    (g : ContentModelBlockGroup) :
  ref (writeLevels target lv g) = ref g.
Proof. by destruct g. Qed.

Lemma setLevels_twice (lv lv' : list ContentModelListLevel) (d : BlockGroupData) :
  setLevels lv' (setLevels lv d) = setLevels lv' d.
Proof. by destruct d. Qed.

(** A later write to the same object replaces an earlier one. *)
Lemma writeLevels_overwrite (target : Ref) (lv lv' : list ContentModelListLevel)
    (g : ContentModelBlockGroup) :
  writeLevels target lv' (writeLevels target lv g) = writeLevels target lv' g.
Proof.
  revert g. fix IH 1. intros [r d bs]. simpl. f_equal.
  - destruct (decide (r = target)); [apply setLevels_twice | done].
  - revert bs. fix IHbs 1. intros [|b bs]; simpl; [done|]. f_equal; [|apply IHbs].
    destruct b as [p|g| | |]; simpl; [done | | done..]. f_equal. apply IH.
Qed.

Lemma writeLevelsInContext_overwrite (target : Ref) (lv lv' : list ContentModelListLevel)
    (context : DeleteSelectionContext) :
  writeLevelsInContext target lv' (writeLevelsInContext target lv context)
  = writeLevelsInContext target lv' context.
Proof.
  unfold writeLevelsInContext. simpl. f_equal.
  destruct (insertPoint context) as [ip|]; simpl; [|done]. f_equal. f_equal.
  rewrite map_map. apply map_ext. intros g. apply writeLevels_overwrite.
Qed.

Section WithSelection.

Variable hasSelectionInBlock : ContentModelBlock -> bool.
Variable hasSelectionInBlockGroup : ContentModelBlockGroup -> bool.




(** X2.  [deleteEmptyList] throws exactly when the deletion kind is range, the
    insert point is present, and the nearest list item on its path is the
    last entry of the path, so that there is no parent to read. *)
Theorem deleteEmptyList_throws_exactly_when (context : DeleteSelectionContext) :
  fst (deleteEmptyList hasSelectionInBlock hasSelectionInBlockGroup context)
  = Thrown TypeError
  <-> deleteResult context = range
      /\ exists ip i item,
           insertPoint context = Some ip
           /\ nearestListItem ip i item
           /\ length (path ip) = S i.
Proof.
  unfold deleteEmptyList.
  destruct (bool_decide_reflect (deleteResult context = range)) as [Hr|Hr];
    [|split; [done | by intros [? _]]].
  destruct (insertPoint context) as [ip|] eqn:Hip;
    [|split; [done | by intros (_ & ip & i & item & ? & _)]].
  cbv zeta.
  destruct (indexOfBy_spec
              (fun g => bool_decide (blockGroupType g ∈ [BlockGroupType.ListItem]))
              (path ip)) as [[Hi Hall] | (i & item & Hi & Hget & Hty & Hfirst)].
  - unfold getClosestAncestorBlockGroupIndex. rewrite Hi, get_negative by lia.
    split; [done|]. intros (_ & ip' & i & item & [= <-] & Hnear & _).
    apply nearestListItem_index in Hnear as [Hidx _].
    unfold getClosestAncestorBlockGroupIndex in Hidx. lia.
  - assert (Hnear : nearestListItem ip i item).
    { apply nearestListItem_index. by split. }
    assert (Hidx : getClosestAncestorBlockGroupIndex (path ip) [BlockGroupType.ListItem]
                   = Z.of_nat i) by done.
    rewrite Hidx, get_of_nat, Hget.
    apply isListItem_decide in Hty. rewrite (bool_decide_eq_true_2 _ Hty).
    destruct (Z.leb_spec 0 (Z.of_nat i)); [|lia]. simpl.
    replace (Z.of_nat i + 1) with (Z.of_nat (S i)) by lia. rewrite get_of_nat.
    destruct (path ip !! S i) as [parent|] eqn:Hparent.
    + split.
      * by destruct (shouldClear _ _ _ _ _).
      * intros (_ & ip' & i' & item' & [= <-] & Hnear' & Hlen). exfalso.
        apply nearestListItem_index in Hnear' as [Hidx' _].
        assert (i' = i) as -> by lia.
        apply lookup_lt_Some in Hparent. lia.
    + split; [|done]. intros _. split; [done|]. exists ip, i, item.
      split; [done|]. split; [done|].
      apply lookup_ge_None in Hparent. apply lookup_lt_Some in Hget. lia.
Qed.

(** X3.  A second call on the context that a call leaves changes nothing
    more: the levels that were cleared stay cleared and nothing else is
    written. *)
Theorem deleteEmptyList_twice (context : DeleteSelectionContext) :
  let once := snd (deleteEmptyList hasSelectionInBlock hasSelectionInBlockGroup context) in
  snd (deleteEmptyList hasSelectionInBlock hasSelectionInBlockGroup once) = once.
Proof.
  cbv zeta.
  destruct (deleteEmptyList_cases hasSelectionInBlock hasSelectionInBlockGroup context)
    as [(item & Hc & Hrun) | [_ Hsame]]; [|by rewrite !Hsame].
  rewrite Hrun. simpl.
  set (once := writeLevelsInContext (ref item) [] context).
  destruct (deleteEmptyList_cases hasSelectionInBlock hasSelectionInBlockGroup once)
    as [(item2 & Hc2 & Hrun2) | [_ Hsame2]]; [|done].
  rewrite Hrun2. simpl.
  assert (Href : ref item2 = ref item); [|rewrite Href; apply writeLevelsInContext_overwrite].
  destruct Hc as (_ & ip & i & _ & _ & _ & Hip & Hnear & _).
  destruct Hc2 as (_ & ip2 & i2 & _ & _ & _ & Hip2 & Hnear2 & _).
  subst once. unfold writeLevelsInContext in Hip2. simpl in Hip2.
  rewrite Hip in Hip2. simpl in Hip2. injection Hip2 as <-.
  destruct Hnear2 as (Hget2 & Hty2 & Hbefore2). simpl in Hget2, Hbefore2.
  rewrite list_lookup_fmap in Hget2.
  destruct (path ip !! i2) as [g|] eqn:Hg; [|done]. simpl in Hget2.
  injection Hget2 as <-. rewrite blockGroupType_writeLevels in Hty2.
  assert (Hnear' : nearestListItem ip i2 g).
  { split; [done|]. split; [done|]. intros j h Hj Hh.
    rewrite <- (blockGroupType_writeLevels (ref item) [] h).
    apply (Hbefore2 j); [done|]. by rewrite list_lookup_fmap, Hh. }
  apply nearestListItem_index in Hnear as [Hidx Hget].
  apply nearestListItem_index in Hnear' as [Hidx' Hget'].
  assert (i2 = i) as -> by lia. rewrite Hget in Hg. injection Hg as <-.
  apply ref_writeLevels.
Qed.

End WithSelection.

(** ** The specification's reading of a recursively empty block *)




End DeleteEmptyListFacts.

(* ===================================================================== *)
(** * More about setModelListStartNumber *)
(* ===================================================================== *)

Module SetModelListStartNumberFacts.
Import Js ContentModel SetModelListStartNumber.

(** The levels of an item after [setModelListStartNumber] wrote [value]. *)
Definition levelsAfter (value : JsNumber) (lv : list ContentModelListLevel) :
    list ContentModelListLevel :=
  alter (withStartNumberOverride value) (Nat.pred (length lv)) lv.

Lemma levelsAfter_snoc (value : JsNumber) (outer : list ContentModelListLevel)
    (innermost : ContentModelListLevel) :
  levelsAfter value (outer ++ [innermost])
  = outer ++ [withStartNumberOverride value innermost].
Proof.
  unfold levelsAfter. rewrite length_app. simpl.
  replace (Nat.pred (length outer + 1)) with (length outer + 0)%nat by lia.
  by rewrite alter_app_r.
Qed.

Lemma levelsAfter_twice (first second : JsNumber) (lv : list ContentModelListLevel) :
  levelsAfter second (levelsAfter first lv) = levelsAfter second lv.
Proof.
  destruct lv as [|l ls _] using rev_ind; [done|].
  by rewrite !levelsAfter_snoc.
Qed.

Section WithSelection.

Variable getFirstSelectedListItem : ContentModelBlockGroup -> option ContentModelListItem.

(** What a call does, in one equation. *)
Lemma setModelListStartNumber_run (model : ContentModelBlockGroup) (value : JsNumber)
    (li : ContentModelListItem) :
  getFirstSelectedListItem model = Some li ->
  setModelListStartNumber getFirstSelectedListItem model value
  = if bool_decide (levels li = []) then (false, model)
    else (true, writeLevels (itemRef li) (levelsAfter value (levels li)) model).
Proof.
  intros Hli. unfold setModelListStartNumber. rewrite Hli. simpl.
  destruct (levels li) as [|l ls _] eqn:Hlv using rev_ind; [done|].
  rewrite (bool_decide_eq_false_2 (ls ++ [l] = [])) by (by destruct ls).
  rewrite length_app. simpl.
  replace (Z.of_nat (length ls + 1) - 1) with (Z.of_nat (length ls)) by lia.
  rewrite get_of_nat, list_lookup_middle by done. simpl.
  f_equal. f_equal. rewrite levelsAfter_snoc.
  replace (Nat.pred (length ls + 1)) with (length ls + 0)%nat by lia.
  by rewrite insert_app_r.
Qed.

Lemma levelsAfter_nil (value : JsNumber) (lv : list ContentModelListLevel) :
  levelsAfter value lv = [] <-> lv = [].
Proof.
  unfold levelsAfter. split; [|by intros ->].
  intros H. apply (f_equal length) in H. rewrite length_alter in H. by destruct lv.
Qed.

(** X4.  Let a call with [first] be followed by a call with [second], the
    selection being on the same list item, which now has the levels the first
    call wrote.  Then the second call leaves the model that a single call with
    [second] on the first model would leave: the last value written is the
    override, and the calls answer alike. *)
Theorem setModelListStartNumber_last_write_wins (model : ContentModelBlockGroup)
    (first second : JsNumber) (li li' : ContentModelListItem) :
  let model' := snd (setModelListStartNumber getFirstSelectedListItem model first) in
  getFirstSelectedListItem model = Some li ->
  getFirstSelectedListItem model' = Some li' ->
  itemRef li' = itemRef li ->
  levels li' = levelsAfter first (levels li) ->
  setModelListStartNumber getFirstSelectedListItem model' second
  = setModelListStartNumber getFirstSelectedListItem model second.
Proof.
  intros model' Hli Hli' Href Hlevels.
  rewrite (setModelListStartNumber_run model' second li' Hli').
  rewrite (setModelListStartNumber_run model second li Hli).
  subst model'. rewrite (setModelListStartNumber_run model first li Hli) in *.
  rewrite Hlevels, Href.
  destruct (decide (levels li = [])) as [Hnil|Hsome].
  - rewrite Hnil. simpl. done.
  - rewrite (bool_decide_eq_false_2 _ Hsome).
    rewrite (bool_decide_eq_false_2 (levelsAfter first (levels li) = []))
      by (by rewrite levelsAfter_nil).
    simpl. rewrite levelsAfter_twice.
    by rewrite DeleteEmptyListFacts.writeLevels_overwrite.
Qed.

End WithSelection.

(** The nested item of the example, numbered 4 and then 9. *)
Lemma setModelListStartNumber_last_write_wins_witness :
  setModelListStartNumber firstListItem
    (Group 0 Document [Divider; BlockGroup (nestedItem (Some (Num 4))); BlockGroup plainItem])
    (Num 9)
  = setModelListStartNumber firstListItem
      (Group 0 Document [Divider; BlockGroup (nestedItem None); BlockGroup plainItem])
      (Num 9).
Proof.
  apply (setModelListStartNumber_last_write_wins firstListItem
           (Group 0 Document [Divider; BlockGroup (nestedItem None); BlockGroup plainItem])
           (Num 4) (Num 9)
           {| itemRef := 7; levels := [numberLevel None; numberLevel None];
              listItemFormat := None;
              itemBlocks := [Paragraph {| paragraphRef := 8; segments := [] |}] |}
           {| itemRef := 7; levels := [numberLevel None; numberLevel (Some (Num 4))];
              listItemFormat := None;
              itemBlocks := [Paragraph {| paragraphRef := 8; segments := [] |}] |});
    reflexivity.
Defined.

End SetModelListStartNumberFacts.

(* ===================================================================== *)
(** * More about getListStyleType *)
(* ===================================================================== *)

Module ListStyleFacts.
Import Js ContentModel ListStyle.

(** [item] is the last list item among [blocks]. *)
Definition lastListItem (blocks : list ContentModelBlock) (item : ContentModelListItem) : Prop :=
  exists i : nat,
    blocks !! i ≫= blockAsListItem = Some item
    /\ forall j : nat, (i < j)%nat -> blocks !! j ≫= blockAsListItem = None.

(** [paragraph] is one of the blocks of [group] itself. *)
Definition holdsDirectly (paragraph : ContentModelParagraph) (group : ContentModelBlockGroup) :
    Prop :=
  exists (k : nat) (x : ContentModelBlock),
    blocks group !! k = Some x /\ sameParagraph paragraph x = true.

Lemma scanBackForListItem_spec (blocks : list ContentModelBlock) (n : nat)
    (item : ContentModelListItem) :
  scanBackForListItem blocks n = Some item
  <-> exists i : nat,
        (i < n)%nat
        /\ blocks !! i ≫= blockAsListItem = Some item
        /\ forall j : nat, (i < j < n)%nat -> blocks !! j ≫= blockAsListItem = None.
Proof.
  induction n as [|n IH]; simpl.
  - split; [done|]. intros (i & Hi & _). lia.
  - destruct (blocks !! n ≫= blockAsListItem) as [found|] eqn:Hn.
    + split.
      * intros [= ->]. exists n. split; [lia|]. split; [done|]. intros j Hj. lia.
      * intros (i & Hi & Hitem & Hafter).
        destruct (decide (i = n)) as [->|Hne]; [congruence|].
        rewrite (Hafter n) in Hn by lia. done.
    + rewrite IH. split.
      * intros (i & Hi & Hitem & Hafter). exists i. split; [lia|]. split; [done|].
        intros j Hj. destruct (decide (j = n)) as [->|]; [done | apply Hafter; lia].
      * intros (i & Hi & Hitem & Hafter).
        destruct (decide (i = n)) as [->|Hne]; [congruence|].
        exists i. split; [lia|]. split; [done|]. intros j Hj. apply Hafter. lia.
Qed.

Lemma scanBackForListItem_last (blocks : list ContentModelBlock)
    (item : ContentModelListItem) :
  scanBackForListItem blocks (length blocks) = Some item <-> lastListItem blocks item.
Proof.
  rewrite scanBackForListItem_spec. unfold lastListItem. split.
  - intros (i & Hi & Hitem & Hafter). exists i. split; [done|]. intros j Hj.
    destruct (decide (j < length blocks)%nat) as [Hlt|Hge]; [apply Hafter; lia|].
    rewrite (lookup_ge_None_2 blocks j) by lia. done.
  - intros (i & Hitem & Hafter). exists i. split; [|split; [done|]].
    + destruct (blocks !! i) eqn:Hi; [|done]. by apply lookup_lt_Some in Hi.
    + intros j Hj. apply Hafter. lia.
Qed.

Lemma holdsDirectly_index (paragraph : ContentModelParagraph) (group : ContentModelBlockGroup) :
  (-1 <? indexOfBy (sameParagraph paragraph) (blocks group)) = true
  <-> holdsDirectly paragraph group.
Proof.
  unfold holdsDirectly.
  destruct (indexOfBy_spec (sameParagraph paragraph) (blocks group))
    as [[Hi Hall] | (k & x & Hi & Hk & Hx & _)]; rewrite Hi.
  - split; [done|]. intros (k & x & Hk & Hx).
    rewrite Forall_lookup in Hall. specialize (Hall _ _ Hk). simpl in Hall. congruence.
  - split; [by exists k, x|]. intros _. apply Z.ltb_lt. lia.
Qed.

Lemma head_filter {A} (f : A -> bool) (l : list A) (x : A) :
  head (List.filter f l) = Some x
  <-> exists before after,
        l = before ++ x :: after
        /\ Forall (fun y => f y = false) before
        /\ f x = true.
Proof.
  induction l as [|y l IH]; simpl.
  - split; [done|]. intros (before & after & H & _). by destruct before.
  - destruct (f y) eqn:Hy; simpl.
    + split.
      * intros [= ->]. by exists [], l.
      * intros (before & after & H & Hbefore & Hx).
        destruct before as [|z before]; simpl in H; [by injection H as ->|].
        injection H as -> _. inversion Hbefore; congruence.
    + rewrite IH. split.
      * intros (before & after & -> & Hbefore & Hx). exists (y :: before), after.
        split; [done|]. split; [by constructor | done].
      * intros (before & after & H & Hbefore & Hx).
        destruct before as [|z before]; simpl in H; [injection H as -> _; congruence|].
        injection H as -> ->. inversion Hbefore; subst. by exists before, after.
Qed.

Section WithImports.

Variable BulletListTypeValue : BulletListType.t -> Z.
Variable getSelectedSegmentsAndParagraphs :
  ContentModelBlockGroup -> bool -> list (ContentModelSegment * option ContentModelParagraph).
Variable getOperationalBlocks :
  ContentModelBlockGroup -> list BlockGroupType.t -> list BlockGroupType.t ->
  list OperationalBlocks.
Variable getNumberingListStyle : JsString -> option JsString -> option Z -> option Z.
Variable getIndex : JsString -> option Z.
Variable updateListMetadata : ContentModelListLevel -> option ListMetadataFormat.

(** X5.  [getPreviousListLevel] answers the list item [item] exactly when some
    operational block has a parent that holds the paragraph among its own
    blocks and [item] is the last list item among the blocks of the first such
    parent, wherever the paragraph stands among them (the item may come after
    the paragraph).  So the answer is [undefined] when no such parent exists
    and when the blocks of the first one hold no list item. *)
Theorem getPreviousListLevel_last_list_item (model : ContentModelBlockGroup)
    (paragraph : ContentModelParagraph) (item : ContentModelListItem) :
  getPreviousListLevel getOperationalBlocks model paragraph = Some item
  <-> exists before ob after,
        getOperationalBlocks model [BlockGroupType.ListItem] [BlockGroupType.TableCell]
          = before ++ ob :: after
        /\ Forall (fun o => ~ holdsDirectly paragraph (parent o)) before
        /\ holdsDirectly paragraph (parent ob)
        /\ lastListItem (blocks (parent ob)) item.
Proof.
  unfold getPreviousListLevel. cbv zeta.
  set (holds := fun ob =>
         -1 <? indexOfBy (sameParagraph paragraph) (blocks (parent ob))).
  set (ops := getOperationalBlocks model [BlockGroupType.ListItem] [BlockGroupType.TableCell]).
  assert (Hbefore : forall l : list OperationalBlocks,
            Forall (fun o => holds o = false) l
            <-> Forall (fun o => ~ holdsDirectly paragraph (parent o)) l).
  { intros l. apply Forall_iff. intros o. unfold holds.
    rewrite <- holdsDirectly_index. by destruct (_ <? _). }
  destruct (head (List.filter holds ops)) as [lb|] eqn:Hhead.
  - rewrite scanBackForListItem_last.
    apply head_filter in Hhead as (before & after & Hops & Hb & Hlb).
    split.
    + intros Hlast. exists before, lb, after. split; [done|].
      split; [by apply Hbefore|]. split; [by apply holdsDirectly_index | done].
    + intros (before' & ob & after' & Hops' & Hb' & Hob & Hlast).
      apply Hbefore in Hb'. apply holdsDirectly_index in Hob. fold (holds ob) in Hob.
      assert (Hsame : head (List.filter holds ops) = Some ob).
      { apply head_filter. by exists before', after'. }
      assert (Hlb' : head (List.filter holds ops) = Some lb).
      { apply head_filter. by exists before, after. }
      rewrite Hsame in Hlb'. by injection Hlb' as ->.
  - split; [done|]. intros (before & ob & after & Hops & Hb & Hob & _).
    apply Hbefore in Hb. apply holdsDirectly_index in Hob.
    assert (Hsome : head (List.filter holds ops) = Some ob).
    { apply head_filter. by exists before, after. }
    congruence.
Qed.

(** X6.  With a selection that is not empty, [getListStyleType] answers
    [undefined] whenever the first selected segment is not a selection marker,
    or has no paragraph, or the paragraph has no leading segment or one that
    is not text. *)
Theorem getListStyleType_undefined_without_typed_text (editor : IStandaloneEditor)
    (selected : ContentModelSegment) (paragraph : option ContentModelParagraph)
    (others : list (ContentModelSegment * option ContentModelParagraph)) :
  getSelectedSegmentsAndParagraphs (createContentModel editor) true
    = (selected, paragraph) :: others ->
  segmentType selected <> SegmentType.SelectionMarker
  \/ paragraph = None
  \/ (exists p, paragraph = Some p
        /\ forall first, get (segments p) 0 = Some first ->
             segmentType first <> SegmentType.Text) ->
  getListStyleType BulletListTypeValue getSelectedSegmentsAndParagraphs getOperationalBlocks
    getNumberingListStyle getIndex updateListMetadata editor
  = Returned None.
Proof.
  intros Hsel Hguard. unfold getListStyleType. rewrite Hsel.
  change (get ((selected, paragraph) :: others) 0) with (Some (selected, paragraph)).
  simpl. destruct paragraph as [p|]; simpl; [|done].
  destruct (get (segments p) 0) as [first|] eqn:Hfirst; [|done].
  destruct Hguard as [Hselected | [Hnone | (p' & [= <-] & Htext)]]; [|done|].
  - by rewrite (bool_decide_eq_false_2 _ Hselected).
  - rewrite (bool_decide_eq_false_2 (segmentType first = SegmentType.Text))
      by (by apply Htext).
    by rewrite andb_false_r.
Qed.

(** X7.  [getListStyleType] throws when the selection is empty, and throws
    only then or when a caret stands behind a leading text segment and the
    list item that [getPreviousListLevel] answers has no level. *)
Theorem getListStyleType_throws_only (editor : IStandaloneEditor) :
  let run :=
    getListStyleType BulletListTypeValue getSelectedSegmentsAndParagraphs
      getOperationalBlocks getNumberingListStyle getIndex updateListMetadata editor in
  let selection :=
    getSelectedSegmentsAndParagraphs (createContentModel editor) true in
  (selection = [] -> run = Thrown TypeError)
  /\ (forall e, run = Thrown e ->
        selection = []
        \/ exists caret p others first item,
             selection = (caret, Some p) :: others
             /\ segmentType caret = SegmentType.SelectionMarker
             /\ get (segments p) 0 = Some first
             /\ segmentType first = SegmentType.Text
             /\ getPreviousListLevel getOperationalBlocks (createContentModel editor) p
                = Some item
             /\ levels item = []).
Proof.
  cbv zeta. split.
  - intros H. unfold getListStyleType. by rewrite H.
  - intros e. unfold getListStyleType.
    destruct (getSelectedSegmentsAndParagraphs (createContentModel editor) true)
      as [|[caret paragraph] others] eqn:Hsel; [by left|].
    change (get ((caret, paragraph) :: others) 0) with (Some (caret, paragraph)).
    simpl. destruct paragraph as [p|]; simpl; [|done].
    destruct (get (segments p) 0) as [first|] eqn:Hfirst; [|done].
    destruct (bool_decide_reflect (segmentType caret = SegmentType.SelectionMarker))
      as [Hcaret|]; [|done].
    destruct (bool_decide_reflect (segmentType first = SegmentType.Text))
      as [Htext|]; [|done].
    simpl. destruct (truthyStyle _); [done|].
    unfold numberingStyle, getPreviousListStyle.
    destruct (getPreviousListLevel getOperationalBlocks (createContentModel editor) p)
      as [item|] eqn:Hprevious; [|by destruct (truthyNumber _)].
    destruct (levels item) as [|level deeper] eqn:Hlevels.
    + intros _. right. by exists caret, p, others, first, item.
    + change (get (level :: deeper) 0) with (Some level).
      cbv iota beta. case_bool_decide; by destruct (truthyNumber _).
Qed.

(** X8.  An answer of [getListStyleType] with list type UL has no index.  An
    answer with list type OL has as its style the non-zero number that
    [getNumberingListStyle] gave for the text of the leading segment, and its
    index is what [getIndex] gives for that text when [getPreviousListLevel]
    answers a list item, and absent otherwise. *)
Theorem getListStyleType_answer (editor : IStandaloneEditor) (answer : ListStyleResult) :
  getListStyleType BulletListTypeValue getSelectedSegmentsAndParagraphs getOperationalBlocks
    getNumberingListStyle getIndex updateListMetadata editor
  = Returned (Some answer) ->
  (listType answer = UL -> index answer = None)
  /\ (listType answer = OL ->
      exists styleNumber : Z,
        styleType answer = StyleNumber styleNumber
        /\ styleNumber <> 0
        /\ exists caret p others first previousListStyle,
           getSelectedSegmentsAndParagraphs (createContentModel editor) true
             = (caret, Some p) :: others
           /\ get (segments p) 0 = Some first
           /\ getPreviousListStyle updateListMetadata
                (getPreviousListLevel getOperationalBlocks (createContentModel editor) p)
              = Returned previousListStyle
           /\ getNumberingListStyle (text first)
                ((getPreviousListLevel getOperationalBlocks (createContentModel editor) p
                    ≫= listItemFormat) ≫= listStyleType)
                previousListStyle
              = Some styleNumber
           /\ index answer
              = match getPreviousListLevel getOperationalBlocks
                        (createContentModel editor) p with
                | Some _ => getIndex (text first)
                | None => None
                end).
Proof.
  unfold getListStyleType.
  destruct (getSelectedSegmentsAndParagraphs (createContentModel editor) true)
    as [|[caret paragraph] others] eqn:Hsel; [done|].
  change (get ((caret, paragraph) :: others) 0) with (Some (caret, paragraph)).
  simpl. destruct paragraph as [p|]; simpl; [|done].
  destruct (get (segments p) 0) as [first|] eqn:Hfirst; [|done].
  destruct (_ && _); [|done].
  destruct (truthyStyle (readBulletListType BulletListTypeValue (text first))).
  - intros [= <-]. simpl. done.
  - unfold numberingStyle.
    destruct (getPreviousListStyle updateListMetadata _) as [previousListStyle|] eqn:Hstyle;
      [|done].
    destruct (getNumberingListStyle (text first) _ previousListStyle)
      as [styleNumber|] eqn:Hnumbering; simpl; [|done].
    destruct (Z.eqb_spec styleNumber 0) as [|Hnonzero]; simpl; [done|].
    intros [= <-]. simpl. split; [done|]. intros _.
    exists styleNumber. split; [done|]. split; [done|].
    exists caret, p, others, first, previousListStyle.
    split; [done|]. split; [done|]. split; [done|]. split; [done|].
    by destruct (getPreviousListLevel getOperationalBlocks (createContentModel editor) p).
Qed.

End WithImports.

(** ** Examples *)

(** The caret alone in its paragraph: the leading segment is the caret, which
    is no text. *)
Lemma getListStyleType_undefined_without_typed_text_witness :
  exampleGetListStyleType
    {| createContentModel :=
         Group 0 Document
           [Paragraph {| paragraphRef := 1; segments := [caretSegment] |}] |}
  = Returned None.
Proof.
  apply (getListStyleType_undefined_without_typed_text exampleStyleNumber topLevelCarets
           topLevelOperationalBlocks decimalOnly leadingInteger noMetadata _
           caretSegment (Some {| paragraphRef := 1; segments := [caretSegment] |}) []).
  - reflexivity.
  - right. right. eexists. split; [reflexivity|]. intros first [= <-]. discriminate.
Defined.

(** A list item with one level that comes after the paragraph of the caret. *)
Definition beforeAnItem : IStandaloneEditor :=
  {| createContentModel :=
       Group 0 Document
         [ Paragraph {| paragraphRef := 1;
                        segments := [textSegment (str "2."); caretSegment] |};
           BlockGroup (Group 2 (ListItem [DeleteEmptyList.bulletLevel] None) []) ] |}.

(** The item that follows the paragraph is the one answered, so the typed
    marker gets an index. *)
Example getListStyleType_item_after_the_paragraph :
  exampleGetListStyleType beforeAnItem
  = Returned (Some {| listType := OL; styleType := 1; index := Some 2 |}).
Proof. vm_compute. reflexivity. Qed.

Lemma getListStyleType_answer_witness :
  (listType {| listType := OL; styleType := 1; index := Some 2 |} = UL ->
   index {| listType := OL; styleType := 1; index := Some 2 |} = None)
  /\ (listType {| listType := OL; styleType := 1; index := Some 2 |} = OL ->
      exists styleNumber : Z,
        styleType {| listType := OL; styleType := 1; index := Some 2 |}
        = StyleNumber styleNumber
        /\ styleNumber <> 0
        /\ exists caret p others first previousListStyle,
           topLevelCarets (createContentModel beforeAnItem) true = (caret, Some p) :: others
           /\ get (segments p) 0 = Some first
           /\ getPreviousListStyle noMetadata
                (getPreviousListLevel topLevelOperationalBlocks
                   (createContentModel beforeAnItem) p)
              = Returned previousListStyle
           /\ decimalOnly (text first)
                ((getPreviousListLevel topLevelOperationalBlocks
                    (createContentModel beforeAnItem) p ≫= listItemFormat) ≫= listStyleType)
                previousListStyle
              = Some styleNumber
           /\ index {| listType := OL; styleType := 1; index := Some 2 |}
              = match getPreviousListLevel topLevelOperationalBlocks
                        (createContentModel beforeAnItem) p with
                | Some _ => leadingInteger (text first)
                | None => None
                end).
Proof.
  apply (getListStyleType_answer exampleStyleNumber topLevelCarets topLevelOperationalBlocks
           decimalOnly leadingInteger noMetadata beforeAnItem).
  vm_compute. reflexivity.
Defined.

End ListStyleFacts.

(* ===================================================================== *)
(** * What the list pattern accepts *)
(* ===================================================================== *)

Module ListPattern.
Import Js ListFeatures.

(** The strings a regular expression denotes. *)
Inductive accepts : RegExp -> JsString -> Prop :=
| accepts_eps : accepts Eps []
| accepts_chr c : accepts (Chr c) [c]
| accepts_range lo hi c : (lo <= c)%N -> (c <= hi)%N -> accepts (CharRange lo hi) [c]
| accepts_seq r1 r2 s1 s2 :
    accepts r1 s1 -> accepts r2 s2 -> accepts (Seq r1 r2) (s1 ++ s2)
| accepts_alt_l r1 r2 s : accepts r1 s -> accepts (Alt r1 r2) s
| accepts_alt_r r1 r2 s : accepts r2 s -> accepts (Alt r1 r2) s.

Lemma accepts_void (s : JsString) : accepts Void s <-> False.
Proof. split; [inversion 1 | done]. Qed.

Lemma accepts_eps_iff (s : JsString) : accepts Eps s <-> s = [].
Proof. split; [by inversion 1 | intros ->; constructor]. Qed.

Lemma accepts_chr_iff (c : N) (s : JsString) : accepts (Chr c) s <-> s = [c].
Proof. split; [by inversion 1 | intros ->; constructor]. Qed.

Lemma accepts_range_iff (lo hi : N) (s : JsString) :
  accepts (CharRange lo hi) s <-> exists c, s = [c] /\ (lo <= c)%N /\ (c <= hi)%N.
Proof.
  split; [inversion 1; subst; by eexists | intros (c & -> & ? & ?); by constructor].
Qed.

Lemma accepts_seq_iff (r1 r2 : RegExp) (s : JsString) :
  accepts (Seq r1 r2) s <-> exists s1 s2, s = s1 ++ s2 /\ accepts r1 s1 /\ accepts r2 s2.
Proof.
  split; [inversion 1; subst; by eexists _, _ | intros (s1 & s2 & -> & ? & ?); by constructor].
Qed.

Lemma accepts_alt_iff (r1 r2 : RegExp) (s : JsString) :
  accepts (Alt r1 r2) s <-> accepts r1 s \/ accepts r2 s.
Proof.
  split; [inversion 1; subst; tauto
         | intros [?|?]; [by apply accepts_alt_l | by apply accepts_alt_r]].
Qed.

Lemma nullable_accepts (r : RegExp) : nullable r = true <-> accepts r [].
Proof.
  induction r as [| |c|lo hi|r1 IH1 r2 IH2|r1 IH1 r2 IH2]; simpl.
  - by rewrite accepts_void.
  - by rewrite accepts_eps_iff.
  - by rewrite accepts_chr_iff.
  - rewrite accepts_range_iff. split; [done | by intros (c & ? & _)].
  - rewrite andb_true_iff, IH1, IH2, accepts_seq_iff. split.
    + intros [H1 H2]. by exists [], [].
    + intros (s1 & s2 & E & H1 & H2). symmetry in E.
      apply app_eq_nil in E as [-> ->]. done.
  - by rewrite orb_true_iff, IH1, IH2, accepts_alt_iff.
Qed.

Lemma deriv_accepts (c : N) (r : RegExp) (s : JsString) :
  accepts (deriv c r) s <-> accepts r (c :: s).
Proof.
  revert s. induction r as [| |d|lo hi|r1 IH1 r2 IH2|r1 IH1 r2 IH2]; intros s; simpl.
  - by rewrite !accepts_void.
  - by rewrite accepts_void, accepts_eps_iff.
  - rewrite accepts_chr_iff. destruct (N.eqb_spec c d) as [->|Hne].
    + rewrite accepts_eps_iff. split; [by intros -> | by intros [= ->]].
    + rewrite accepts_void. split; [done | intros [= ? _]; done].
  - rewrite accepts_range_iff.
    destruct (N.leb_spec lo c) as [Hlo|Hlo]; simpl;
      [destruct (N.leb_spec c hi) as [Hhi|Hhi]|].
    + rewrite accepts_eps_iff. split; [intros ->; by exists c | by intros (? & [= <- ->] & _)].
    + rewrite accepts_void. split; [done | intros (? & [= <- _] & ? & ?); lia].
    + rewrite accepts_void. split; [done | intros (? & [= <- _] & ? & ?); lia].
  - assert (Hcons : accepts (Seq r1 r2) (c :: s)
                    <-> accepts (Seq (deriv c r1) r2) s
                        \/ (accepts r1 [] /\ accepts r2 (c :: s))).
    { rewrite !accepts_seq_iff. split.
      - intros (s1 & s2 & E & H1 & H2). destruct s1 as [|c' s1]; simpl in E.
        + right. by subst.
        + injection E as <- ->. left. exists s1, s2. split; [done|].
          split; [by apply IH1 | done].
      - intros [(s1 & s2 & -> & H1 & H2) | [H1 H2]].
        + exists (c :: s1), s2. split; [done|]. split; [by apply IH1 | done].
        + by exists [], (c :: s). }
    rewrite Hcons. destruct (nullable r1) eqn:Hnull.
    + apply nullable_accepts in Hnull. rewrite accepts_alt_iff, IH2. tauto.
    + split; [by left|]. intros [H | [H _]]; [done|].
      apply nullable_accepts in H. congruence.
  - by rewrite !accepts_alt_iff, IH1, IH2.
Qed.

(** The matcher decides the denotation. *)
Lemma matches_accepts (r : RegExp) (s : JsString) : matches r s = true <-> accepts r s.
Proof.
  revert r. induction s as [|c s IH]; intros r; simpl.
  - apply nullable_accepts.
  - rewrite IH. apply deriv_accepts.
Qed.

(** ** The shapes of a list pattern *)

Definition isDigit (c : N) : Prop := (48 <= c <= 57)%N.

(** One or two decimal digits. *)
Definition digits (ds : JsString) : Prop :=
  (exists d, ds = [d] /\ isDigit d)
  \/ (exists d1 d2, ds = [d1; d2] /\ isDigit d1 /\ isDigit d2).

(** The separators: [.], [>], [)] and [-]. *)
Definition separators : list N := [46; 62; 41; 45]%N.

Lemma accepts_digit (s : JsString) : accepts digit s <-> exists d, s = [d] /\ isDigit d.
Proof.
  unfold digit, isDigit. rewrite accepts_range_iff. by setoid_rewrite (and_assoc (_ = _)).
Qed.

Lemma accepts_digits (ds : JsString) : accepts (oneOrTwo digit) ds <-> digits ds.
Proof.
  unfold oneOrTwo, digits. rewrite accepts_seq_iff. split.
  - intros (s1 & s2 & -> & H1 & H2). apply accepts_digit in H1 as (d1 & -> & Hd1).
    apply accepts_alt_iff in H2 as [H2|H2].
    + apply accepts_digit in H2 as (d2 & -> & Hd2). right. by exists d1, d2.
    + apply accepts_eps_iff in H2 as ->. left. by exists d1.
  - intros [(d & -> & Hd) | (d1 & d2 & -> & Hd1 & Hd2)].
    + exists [d], []. split; [done|]. split; [apply accepts_digit; by exists d|].
      apply accepts_alt_r. constructor.
    + exists [d1], [d2]. split; [done|]. split; [apply accepts_digit; by exists d1|].
      apply accepts_alt_l, accepts_digit. by exists d2.
Qed.

Lemma accepts_digits_then (sep : N) (s : JsString) :
  accepts (Seq (oneOrTwo digit) (Chr sep)) s <-> exists ds, s = ds ++ [sep] /\ digits ds.
Proof.
  rewrite accepts_seq_iff. split.
  - intros (s1 & s2 & -> & H1 & H2). apply accepts_chr_iff in H2 as ->.
    exists s1. split; [done | by apply accepts_digits].
  - intros (ds & -> & Hds). exists ds, [sep]. split; [done|].
    split; [by apply accepts_digits | constructor].
Qed.

(** What an accepted text looks like. *)
Lemma isAListPattern_cases (textBeforeCursor : JsString) :
  isAListPattern textBeforeCursor = true ->
  textBeforeCursor = str "*"
  \/ textBeforeCursor = str "-"
  \/ (exists ds sep,
        textBeforeCursor = ds ++ [sep] /\ digits ds /\ sep ∈ separators)
  \/ (exists ds, textBeforeCursor = 40%N :: ds ++ [41%N] /\ digits ds).
Proof.
  unfold isAListPattern. rewrite matches_accepts. unfold REGEX, separators.
  rewrite !accepts_alt_iff, !accepts_chr_iff, !accepts_digits_then, accepts_seq_iff.
  intros [-> | [-> | [H | [H | [H | [H | H]]]]]]; [by left | by right; left | ..].
  - destruct H as (ds & -> & Hds). right. right. left. exists ds, 46%N.
    rewrite !elem_of_cons. tauto.
  - destruct H as (ds & -> & Hds). right. right. left. exists ds, 62%N.
    rewrite !elem_of_cons. tauto.
  - destruct H as (ds & -> & Hds). right. right. left. exists ds, 41%N.
    rewrite !elem_of_cons. tauto.
  - destruct H as (ds & -> & Hds). right. right. left. exists ds, 45%N.
    rewrite !elem_of_cons. tauto.
  - destruct H as (s1 & s2 & -> & H1 & H2). apply accepts_chr_iff in H1 as ->.
    apply accepts_digits_then in H2 as (ds & -> & Hds).
    right. right. right. by exists ds.
Qed.

(** X9.  [isAListPattern] accepts exactly the texts [*] and [-], one or two
    decimal digits followed by one of [.], [>], [)] and [-], and one or two
    decimal digits between parentheses. *)
Theorem isAListPattern_shapes (textBeforeCursor : JsString) :
  isAListPattern textBeforeCursor = true
  <-> textBeforeCursor = str "*"
      \/ textBeforeCursor = str "-"
      \/ (exists ds sep,
            textBeforeCursor = ds ++ [sep] /\ digits ds /\ sep ∈ separators)
      \/ (exists ds, textBeforeCursor = 40%N :: ds ++ [41%N] /\ digits ds).
Proof.
  split; [apply isAListPattern_cases|].
  unfold isAListPattern. rewrite matches_accepts. unfold REGEX, separators.
  rewrite !accepts_alt_iff, !accepts_chr_iff, !accepts_digits_then, accepts_seq_iff.
  intros [-> | [-> | [(ds & sep & -> & Hds & Hsep) | (ds & -> & Hds)]]].
  - by left.
  - right. by left.
  - rewrite !elem_of_cons, elem_of_nil in Hsep.
    destruct Hsep as [-> | [-> | [-> | [-> | []]]]].
    + do 2 right. left. by exists ds.
    + do 3 right. left. by exists ds.
    + do 4 right. left. by exists ds.
    + do 5 right. left. by exists ds.
  - do 6 right. exists [40%N], (ds ++ [41%N]). split; [done|].
    split; [constructor | apply accepts_digits_then; by exists ds].
Qed.

End ListPattern.

(* ===================================================================== *)
(** * More about the auto-list features *)
(* ===================================================================== *)

Module AutoListFacts.
Import Js ListFeatures ListPattern.

(** ** Strings *)

Lemma isDigit_value (d : N) : isDigit d -> digitValue 10 d = Some (Z.of_N d - 48).
Proof.
  unfold isDigit, digitValue. intros [Hlo Hhi]. cbv zeta.
  destruct (Z.leb_spec 48 (Z.of_N d)); [|lia].
  destruct (Z.leb_spec (Z.of_N d) 57); [|lia]. simpl.
  destruct (Z.ltb_spec (Z.of_N d - 48) 10); [done | lia].
Qed.

Lemma isDigit_not_blank (d : N) : isDigit d -> isWhiteSpace d = false.
Proof.
  intros Hd. destruct (isWhiteSpace d) eqn:Hw; [|done].
  apply isWhiteSpace_no_digit in Hw. rewrite (isDigit_value d Hd) in Hw. done.
Qed.

Lemma isDigit_not (d c : N) : isDigit d -> ~ isDigit c -> (d =? c)%N = false.
Proof.
  intros Hd Hc. destruct (N.eqb_spec d c) as [->|]; done.
Qed.

(** The number that one or two digits spell. *)
Definition digitsValue (ds : JsString) : Z :=
  fold_left (fun acc d => 10 * acc + (Z.of_N d - 48)) ds 0.

(** [parseInt] of digits followed by something that is no digit, letter or
    blank reads the digits. *)
Lemma parseInt_digits (ds : JsString) (c : N) (rest : JsString) :
  digits ds ->
  digitValue 10 c = None ->
  c <> 120%N -> c <> 88%N ->
  parseInt (ds ++ c :: rest) = Num (digitsValue ds).
Proof.
  intros Hds Hc Hx HX.
  assert (Hsign : forall d, isDigit d -> (d =? 45)%N = false /\ (d =? 43)%N = false).
  { intros d Hd. split; apply isDigit_not; unfold isDigit in *; lia. }
  assert (Hx' : forall d, isDigit d -> (d =? 120)%N = false /\ (d =? 88)%N = false).
  { intros d Hd. split; apply isDigit_not; unfold isDigit in *; lia. }
  unfold parseInt, digitsValue.
  destruct Hds as [(d & -> & Hd) | (d1 & d2 & -> & Hd1 & Hd2)]; simpl.
  - rewrite (isDigit_not_blank d Hd). unfold readSign.
    destruct (Hsign d Hd) as [-> ->]. unfold readRadix.
    apply N.eqb_neq in Hx, HX. rewrite Hx, HX, andb_false_r. simpl.
    rewrite (isDigit_value d Hd), Hc. f_equal. lia.
  - rewrite (isDigit_not_blank d1 Hd1). unfold readSign.
    destruct (Hsign d1 Hd1) as [-> ->]. unfold readRadix.
    destruct (Hx' d2 Hd2) as [-> ->]. rewrite andb_false_r. simpl.
    rewrite (isDigit_value d1 Hd1), (isDigit_value d2 Hd2), Hc. f_equal. lia.
Qed.

(** [parseInt] of a text that opens with a parenthesis is NaN. *)
Lemma parseInt_parenthesis (rest : JsString) : parseInt (40%N :: rest) = NaN.
Proof.
  unfold parseInt. simpl. by destruct rest.
Qed.

Lemma separator_no_digit (sep : N) :
  sep ∈ separators -> digitValue 10 sep = None /\ sep <> 120%N /\ sep <> 88%N.
Proof.
  unfold separators. rewrite !elem_of_cons, elem_of_nil.
  intros [-> | [-> | [-> | [-> | []]]]]; done.
Qed.

(** [s.indexOf(c) == 0]: the string starts with [c]. *)
Lemma indexOfChar_zero (c : N) (s : JsString) :
  indexOfChar c s = 0 <-> head s = Some c.
Proof.
  unfold indexOfChar, indexOfBy. destruct s as [|d s]; simpl; [done|].
  destruct (N.eqb_spec c d) as [->|Hne]; [done|].
  split; [|intros [= ->]; done]. intros H. exfalso.
  destruct (indexOfFrom_spec (N.eqb c) s (0 + 1) ltac:(lia))
    as [[E _] | (k & x & E & _)]; rewrite E in H; lia.
Qed.

(** A text that the pattern accepts ends in [*], [-], [.], [>] or [)]. *)
Lemma isAListPattern_last (text : JsString) :
  isAListPattern text = true -> exists c, last text = Some c /\ c ∈ [42; 45; 46; 62; 41]%N.
Proof.
  intros H. apply isAListPattern_cases in H.
  destruct H as [-> | [-> | [(ds & sep & -> & _ & Hsep) | (ds & -> & _)]]].
  - exists 42%N. split; [done|]. rewrite !elem_of_cons. tauto.
  - exists 45%N. split; [done|]. rewrite !elem_of_cons. tauto.
  - exists sep. rewrite last_snoc. split; [done|].
    unfold separators in Hsep. rewrite !elem_of_cons in *. tauto.
  - exists 41%N. change (40%N :: ds ++ [41%N]) with ((40%N :: ds) ++ [41%N]).
    rewrite last_snoc. split; [done|]. rewrite !elem_of_cons. tauto.
Qed.

(** So a text that ends in a no-break space is not accepted. *)
Lemma isAListPattern_before_space (text : JsString) :
  isAListPattern (text ++ [160%N]) = false.
Proof.
  destruct (isAListPattern (text ++ [160%N])) eqn:H; [|done].
  apply isAListPattern_last in H as (c & Hlast & Hc). rewrite last_snoc in Hlast.
  injection Hlast as <-. rewrite !elem_of_cons, elem_of_nil in Hc.
  destruct Hc as [? | [? | [? | [? | [? | []]]]]]; done.
Qed.

(** ** A trailing no-break space *)

Lemma trimStart_app_blank (s : JsString) (w : N) :
  isWhiteSpace w = true ->
  trimStart (s ++ [w]) = match trimStart s with [] => [] | t => t ++ [w] end.
Proof.
  intros Hw. induction s as [|c s IH]; simpl; [by rewrite Hw|].
  by destruct (isWhiteSpace c).
Qed.

Lemma trim_app_blank (s : JsString) (w : N) :
  isWhiteSpace w = true -> trim (s ++ [w]) = trim s.
Proof.
  intros Hw. unfold trim. rewrite (trimStart_app_blank s w Hw).
  destruct (trimStart s) as [|c t] eqn:Hs; [done|].
  rewrite rev_app_distr. simpl. by rewrite Hw.
Qed.

Lemma parseDigits_app_other (radix : Z) (acc : option Z) (s : JsString) (w : N) :
  digitValue radix w = None ->
  parseDigits radix acc (s ++ [w]) = parseDigits radix acc s.
Proof.
  intros Hw. revert acc. induction s as [|c s IH]; intros acc; simpl; [by rewrite Hw|].
  destruct (digitValue radix c); [apply IH | done].
Qed.

(** [parseInt] does not see a no-break space that follows the text. *)
Lemma parseInt_app_space (s : JsString) : parseInt (s ++ [160%N]) = parseInt s.
Proof.
  unfold parseInt. rewrite (trimStart_app_blank s 160) by done.
  destruct (trimStart s) as [|c t]; [done|].
  assert (Hsign : readSign ((c :: t) ++ [160%N])
                  = ((readSign (c :: t)).1, (readSign (c :: t)).2 ++ [160%N])).
  { simpl. destruct (c =? 45)%N; [done|]. by destruct (c =? 43)%N. }
  rewrite Hsign. destruct (readSign (c :: t)) as [sign u]. simpl.
  assert (Hradix : readRadix (u ++ [160%N])
                   = ((readRadix u).1, (readRadix u).2 ++ [160%N])).
  { destruct u as [|c1 [|c2 u]]; simpl; [done | by rewrite andb_false_r |].
    by destruct (_ && _)%bool. }
  rewrite Hradix. destruct (readRadix u) as [radix v] eqn:Hv. simpl.
  assert (Hdigit : digitValue radix 160 = None).
  { unfold readRadix in Hv. destruct u as [|c1 [|c2 u]];
      [by injection Hv as <- _ | by injection Hv as <- _ |].
    destruct (_ && _)%bool; by injection Hv as <- _. }
  by rewrite (parseDigits_app_other radix None v 160 Hdigit).
Qed.

Lemma stripPunctuation_app (s t : JsString) :
  stripPunctuation (s ++ t) = stripPunctuation s ++ stripPunctuation t.
Proof. unfold stripPunctuation. apply List.filter_app. Qed.

(** Nor does the first-item check. *)
Lemma isFirstItemOfAList_app_space (item : JsString) :
  isFirstItemOfAList (item ++ [160%N]) = isFirstItemOfAList item.
Proof.
  unfold isFirstItemOfAList. cbv zeta.
  rewrite parseInt_app_space, stripPunctuation_app.
  change (stripPunctuation [160%N]) with [160%N].
  by rewrite (trim_app_blank _ 160).
Qed.

Lemma isFirstItemOfAList_one_or_none (item : JsString) :
  isFirstItemOfAList item = Some 1 \/ isFirstItemOfAList item = None.
Proof.
  unfold isFirstItemOfAList. cbv zeta.
  destruct (_ && _); [by left|]. destruct (_ && _); [by left | by right].
Qed.

(** X10.  [isFirstItemOfAList] answers 1 exactly when the text parses to the
    integer 1 or, with its parentheses, hyphens and dots removed and then
    trimmed, is one of the letters i, a, I and A; otherwise it answers
    [undefined].  A no-break space after the text changes nothing. *)
Theorem isFirstItemOfAList_exactly (item : JsString) :
  (isFirstItemOfAList item = Some 1
   <-> parseInt item = Num 1 \/ trim (stripPunctuation item) ∈ firstLetters)
  /\ (isFirstItemOfAList item = Some 1 \/ isFirstItemOfAList item = None)
  /\ isFirstItemOfAList (item ++ [160%N]) = isFirstItemOfAList item.
Proof.
  split; [|split; [apply isFirstItemOfAList_one_or_none
                    |apply isFirstItemOfAList_app_space]].
  split; [|apply isFirstItemOfAList_signals].
  unfold isFirstItemOfAList. cbv zeta. fold firstLetters. rewrite firstLetter_index.
  destruct (parseInt item) as [|n]; simpl.
  - case_bool_decide; [by right | done].
  - destruct (bool_decide_reflect (Num n = Num 1)) as [Hn|Hn]; [by left|].
    rewrite andb_false_r. case_bool_decide; [by right | done].
Qed.

(** ** From the predicate to the action *)

(** The third branch of the action: a text that ends in a no-break space and
    starts with neither [*] nor [-]. *)
Lemma AutoBullet_handleEvent_numbered (editor : IEditor) (text s : JsString)
    (range : Range) (n : JsNumber) :
  getSubStringBefore (getContentSearcherOfCursor editor) 4 = text ->
  getRangeFromText (getContentSearcherOfCursor editor) text true = Some range ->
  length (getSelectedRegions editor) = 1%nat ->
  text = s ++ [160%N] ->
  head text <> Some 42%N ->
  head text <> Some 45%N ->
  parseInt text = n ->
  AutoBullet_handleEvent editor
  = [insertContent (str "&nbsp;"); preventDefault;
     addUndoSnapshot
       [prepareAutoBullet range; toggleNumbering (Some n) None None; deleteContents text]
       true].
Proof.
  intros Htext Hrange Hone Hs H42 H45 Hn.
  unfold AutoBullet_handleEvent, AutoBullet_callback. cbv zeta.
  rewrite Htext, Hrange, (bool_decide_eq_true_2 _ Hone).
  destruct (Z.eqb_spec (indexOfChar 42 text) 0) as [E|_];
    [by apply indexOfChar_zero in E|].
  destruct (Z.eqb_spec (indexOfChar 45 text) 0) as [E|_];
    [by apply indexOfChar_zero in E|].
  simpl. rewrite Hs at 1. rewrite isAListPattern_before_space. by rewrite Hn.
Qed.

Lemma isDigit_not_bullet (d : N) : isDigit d -> Some d <> Some 42%N /\ Some d <> Some 45%N.
Proof.
  unfold isDigit. intros Hd. split; intros [= ->]; lia.
Qed.

(** X11.  Let the legacy predicate have accepted [marker], and let the action,
    which first inserts a no-break space, read the last four characters of
    [marker] followed by that space, find their range, and have one region
    selected.  For [*] and [-] it toggles a bullet list.  For digits followed
    by a separator it toggles a numbered list that starts at the number the
    digits spell, and so it does for two digits between parentheses.  For one
    digit between parentheses it passes NaN as the start number. *)
Theorem AutoBullet_after_predicate (editor : IEditor) (marker : JsString) (range : Range) :
  let text := lastChars 4 (marker ++ [160%N]) in
  isAListPattern marker = true ->
  getSubStringBefore (getContentSearcherOfCursor editor) 4 = text ->
  getRangeFromText (getContentSearcherOfCursor editor) text true = Some range ->
  length (getSelectedRegions editor) = 1%nat ->
  let action calls :=
    [insertContent (str "&nbsp;"); preventDefault;
     addUndoSnapshot ([prepareAutoBullet range] ++ calls ++ [deleteContents text]) true] in
  (marker = str "*" \/ marker = str "-" ->
     AutoBullet_handleEvent editor = action [toggleBullet None None])
  /\ (forall ds sep, marker = ds ++ [sep] -> digits ds ->
        AutoBullet_handleEvent editor
        = action [toggleNumbering (Some (Num (digitsValue ds))) None None])
  /\ (forall d1 d2, marker = [40%N; d1; d2; 41%N] ->
        AutoBullet_handleEvent editor
        = action [toggleNumbering (Some (Num (digitsValue [d1; d2]))) None None])
  /\ (forall d, marker = [40%N; d; 41%N] ->
        AutoBullet_handleEvent editor = action [toggleNumbering (Some NaN) None None]).
Proof.
  intros text Hpattern Htext Hrange Hone action. subst action. cbv beta.
  split; [|split; [|split]].
  - intros Hbullet. unfold AutoBullet_handleEvent, AutoBullet_callback. cbv zeta.
    rewrite Htext, Hrange. by destruct Hbullet as [-> | ->].
  - intros ds sep -> Hds.
    assert (Hsep : sep ∈ separators).
    { apply isAListPattern_cases in Hpattern
        as [E | [E | [(ds' & sep' & E & _ & Hsep') | (ds' & E & _)]]].
      - destruct Hds as [(d & -> & _) | (d1 & d2 & -> & _)]; done.
      - destruct Hds as [(d & -> & _) | (d1 & d2 & -> & _)]; done.
      - apply app_inj_tail in E as [_ ->]. done.
      - exfalso. destruct Hds as [(d & -> & Hd) | (d1 & d2 & -> & Hd1 & _)];
          injection E as -> _; unfold isDigit in *; lia. }
    destruct (separator_no_digit sep Hsep) as (Hnone & Hx & HX).
    assert (Htext' : text = (ds ++ [sep]) ++ [160%N]).
    { subst text. by destruct Hds as [(d & -> & _) | (d1 & d2 & -> & _)]. }
    assert (Hhead : head text <> Some 42%N /\ head text <> Some 45%N).
    { rewrite Htext'. destruct Hds as [(d & -> & Hd) | (d1 & d2 & -> & Hd & _)];
        apply (isDigit_not_bullet _ Hd). }
    apply (AutoBullet_handleEvent_numbered editor text (ds ++ [sep]) range);
      [done.. | apply Hhead | apply Hhead |].
    rewrite Htext', <- app_assoc. by apply parseInt_digits.
  - intros d1 d2 ->.
    assert (Hds : digits [d1; d2]).
    { apply isAListPattern_cases in Hpattern
        as [E | [E | [(ds' & sep' & E & Hds' & _) | (ds' & E & Hds')]]]; [done | done | |].
      - exfalso. destruct Hds' as [(d & -> & Hd) | (e1 & e2 & -> & Hd & _)];
          injection E as <-; unfold isDigit in *; lia.
      - injection E as E. change [d1; d2; 41%N] with ([d1; d2] ++ [41%N]) in E.
        apply app_inj_tail in E as [<- _]. done. }
    assert (Hd1 : isDigit d1).
    { destruct Hds as [(d & [=] & _) | (e1 & e2 & [= -> ->] & Hd & _)]. done. }
    apply (AutoBullet_handleEvent_numbered editor text [d1; d2; 41%N] range);
      [done.. | apply (isDigit_not_bullet _ Hd1) | apply (isDigit_not_bullet _ Hd1) |].
    apply (parseInt_digits [d1; d2] 41 [160%N]); done.
  - intros d ->.
    apply (AutoBullet_handleEvent_numbered editor text [40%N; d; 41%N] range); [done.. |].
    apply parseInt_parenthesis.
Qed.

(** The text that the action reads behind a marker that is no bullet: it ends
    in the no-break space, starts with neither [*] nor [-], and [parseInt]
    reads from it the leading integer of the marker, when the marker has one. *)
Lemma text_after_numbered_marker (marker : JsString) :
  isAListPattern marker = true ->
  marker <> str "*" -> marker <> str "-" ->
  let text := lastChars 4 (marker ++ [160%N]) in
  (exists s, text = s ++ [160%N])
  /\ head text <> Some 42%N
  /\ head text <> Some 45%N
  /\ forall n, parseInt marker = Num n -> parseInt text = Num n.
Proof.
  intros Hpattern Hstar Hdash.
  apply isAListPattern_cases in Hpattern
    as [E | [E | [(ds & sep & -> & Hds & Hsep) | (ds & -> & Hds)]]]; [done | done | |].
  - assert (Htext : lastChars 4 ((ds ++ [sep]) ++ [160%N]) = (ds ++ [sep]) ++ [160%N]).
    { by destruct Hds as [(d & -> & _) | (d1 & d2 & -> & _)]. }
    cbv zeta. rewrite Htext. split; [by eexists|].
    split; [|split].
    + destruct Hds as [(d & -> & Hd) | (d1 & d2 & -> & Hd & _)];
        apply (isDigit_not_bullet _ Hd).
    + destruct Hds as [(d & -> & Hd) | (d1 & d2 & -> & Hd & _)];
        apply (isDigit_not_bullet _ Hd).
    + intros n Hn. by rewrite parseInt_app_space.
  - cbv zeta. destruct Hds as [(d & -> & Hd) | (d1 & d2 & -> & Hd1 & Hd2)].
    + split; [by exists [40%N; d; 41%N]|]. split; [done|]. split; [done|].
      intros n Hn. by rewrite parseInt_parenthesis in Hn.
    + split; [by exists [d1; d2; 41%N]|].
      split; [apply (isDigit_not_bullet _ Hd1)|].
      split; [apply (isDigit_not_bullet _ Hd1)|].
      intros n Hn. by rewrite parseInt_parenthesis in Hn.
Qed.

(** C6.  On the legacy AutoBullet path, let [marker] be the text that the
    predicate matched against the list pattern.  The action first inserts a
    no-break space and then reads the last four characters before the cursor,
    which are those of [marker] followed by that space; let it find their
    range.  When [marker] is [*] or [-], the action prepares the block and
    toggles a bullet list.  When [marker] is one of the digit forms of the
    pattern and one region is selected, the action prepares the block and
    toggles a numbered list with an explicit start number, [parseInt] of the
    text it read; whenever [marker] has a leading integer, that integer is the
    start number. *)
Theorem AutoBullet_creates_list (editor : IEditor) (marker : JsString) (range : Range) :
  let text := lastChars 4 (marker ++ [160%N]) in
  isAListPattern marker = true ->
  getSubStringBefore (getContentSearcherOfCursor editor) 4 = text ->
  getRangeFromText (getContentSearcherOfCursor editor) text true = Some range ->
  let action calls :=
    [insertContent (str "&nbsp;"); preventDefault;
     addUndoSnapshot ([prepareAutoBullet range] ++ calls ++ [deleteContents text]) true] in
  (marker = str "*" \/ marker = str "-" ->
     AutoBullet_handleEvent editor = action [toggleBullet None None])
  /\ (marker <> str "*" -> marker <> str "-" ->
      length (getSelectedRegions editor) = 1%nat ->
      AutoBullet_handleEvent editor
      = action [toggleNumbering (Some (parseInt text)) None None]
      /\ forall n, parseInt marker = Num n -> parseInt text = Num n).
Proof.
  intros text Hpattern Htext Hrange action. subst action. cbv beta. split.
  - intros Hbullet. unfold AutoBullet_handleEvent, AutoBullet_callback. cbv zeta.
    rewrite Htext, Hrange. by destruct Hbullet as [-> | ->].
  - intros Hstar Hdash Hone.
    destruct (text_after_numbered_marker marker Hpattern Hstar Hdash)
      as ((s & Hs) & H42 & H45 & Hparse).
    split; [|exact Hparse].
    by apply (AutoBullet_handleEvent_numbered editor text s range).
Qed.

Section WithImports.

Variable VListChain : Type.
Variable createListChains : list Region -> list VListChain.
Variable findClosestElementAncestor : Node -> JsString -> option Node.
Variable getMetadata : Node -> option ListStyleMetadata.
Variable getAutoBulletListStyle :
  JsString -> option (list VListChain) -> option Z -> option Z.
Variable getAutoNumberingListStyle :
  JsString -> option (list VListChain) -> option Z -> option Z.

(** X12.  Let the auto-numbering action, which first inserts a no-break
    space, read [typed] followed by that space and find the range.  The space
    does not change the start number: it is 1 when [typed] is a first-item
    marker; otherwise no start number is passed when the previous block ends
    in a list item, and [parseInt typed] is passed when it does not. *)
Theorem AutoNumberingList_after_typing (editor : IEditor) (typed : JsString) (range : Range) :
  let text := typed ++ [160%N] in
  getSubStringBefore (getContentSearcherOfCursor editor) 5 = text ->
  getRangeFromText (getContentSearcherOfCursor editor) text true = Some range ->
  AutoNumberingList_handleEvent VListChain getAutoNumberingListStyle editor
  = [insertContent (str "&nbsp;"); preventDefault;
     addUndoSnapshot
       [prepareAutoBullet range;
        toggleNumbering
          (match isFirstItemOfAList typed, getPreviousListItem editor (Some range) with
           | Some _, _ => Some (Num 1)
           | None, Some _ => None
           | None, None => Some (parseInt typed)
           end)
          (getAutoNumberingListStyle text None None)
          (Some (str "autoToggleList"));
        deleteContents text]
       true].
Proof using Type.
  intros text Htext Hrange.
  unfold AutoNumberingList_handleEvent, AutoNumberingList_callback. cbv zeta.
  rewrite Htext, Hrange. subst text.
  rewrite isFirstItemOfAList_app_space, parseInt_app_space.
  destruct (isFirstItemOfAList_one_or_none typed) as [Hone | Hnone].
  - rewrite Hone. simpl. by rewrite andb_false_r.
  - rewrite Hnone. simpl.
    assert (Hne : parseInt typed <> Num 1).
    { intros E.
      assert (isFirstItemOfAList typed = Some 1)
        by (apply isFirstItemOfAList_signals; by left).
      congruence. }
    rewrite (bool_decide_eq_true_2 _ Hne), andb_true_r.
    by destruct (getPreviousListItem editor (Some range)).
Qed.

(** X13.  On one state of the editor the legacy auto-bullet predicate and the
    experimental predicates never hold together, and none of the three holds
    when the cursor is in a list item of a list. *)
Theorem auto_list_predicates_exclusive (editor : IEditor) :
  let legacy := AutoBullet_shouldHandleEvent editor in
  let bullets :=
    AutoBulletList_shouldHandleEvent VListChain createListChains
      findClosestElementAncestor getMetadata getAutoBulletListStyle editor in
  let numbers :=
    AutoNumberingList_shouldHandleEvent VListChain createListChains
      findClosestElementAncestor getMetadata getAutoNumberingListStyle editor in
  (legacy = true -> bullets = false /\ numbers = false)
  /\ (is_Some (cacheGetListElement editor) ->
      legacy = false /\ bullets = false /\ numbers = false).
Proof.
  cbv zeta.
  unfold AutoBullet_shouldHandleEvent, AutoBulletList_shouldHandleEvent,
    AutoNumberingList_shouldHandleEvent.
  split.
  - destruct (isFeatureEnabled editor AutoFormatList); simpl.
    + by rewrite andb_false_r.
    + intros _. by rewrite !andb_false_r.
  - intros Hlist. by rewrite (bool_decide_eq_true_2 _ Hlist).
Qed.

End WithImports.

(** ** Examples *)

Lemma AutoBullet_after_predicate_witness :
  AutoBullet_handleEvent (plainEditor (str "12." ++ [160%N]) None false)
  = [insertContent (str "&nbsp;"); preventDefault;
     addUndoSnapshot
       [prepareAutoBullet typedRange; toggleNumbering (Some (Num 12)) None None;
        deleteContents (str "12." ++ [160%N])] true]
  /\ AutoBullet_handleEvent (plainEditor (str "(7)" ++ [160%N]) None false)
     = [insertContent (str "&nbsp;"); preventDefault;
        addUndoSnapshot
          [prepareAutoBullet typedRange; toggleNumbering (Some NaN) None None;
           deleteContents (str "(7)" ++ [160%N])] true].
Proof.
  split.
  - apply (proj1 (proj2 (AutoBullet_after_predicate
                           (plainEditor (str "12." ++ [160%N]) None false) (str "12.")
                           typedRange eq_refl eq_refl eq_refl eq_refl))
             (str "12") 46%N eq_refl).
    right. exists 49%N, 50%N. unfold isDigit. split; [reflexivity | lia].
  - apply (proj2 (proj2 (proj2 (AutoBullet_after_predicate
                                  (plainEditor (str "(7)" ++ [160%N]) None false)
                                  (str "(7)") typedRange eq_refl eq_refl eq_refl eq_refl)))
             55%N eq_refl).
Defined.

(** [*] and [12.] typed, with the no-break space that the action inserts. *)
Lemma AutoBullet_creates_list_witness :
  AutoBullet_handleEvent (plainEditor (str "*" ++ [160%N]) None false)
  = [insertContent (str "&nbsp;"); preventDefault;
     addUndoSnapshot
       [prepareAutoBullet typedRange; toggleBullet None None;
        deleteContents (str "*" ++ [160%N])] true]
  /\ (AutoBullet_handleEvent (plainEditor (str "12." ++ [160%N]) None false)
      = [insertContent (str "&nbsp;"); preventDefault;
         addUndoSnapshot
           [prepareAutoBullet typedRange; toggleNumbering (Some (Num 12)) None None;
            deleteContents (str "12." ++ [160%N])] true]
      /\ forall n, parseInt (str "12.") = Num n -> Num 12 = Num n).
Proof.
  split.
  - apply (proj1 (AutoBullet_creates_list (plainEditor (str "*" ++ [160%N]) None false)
                    (str "*") typedRange eq_refl eq_refl eq_refl)).
    left. reflexivity.
  - apply (proj2 (AutoBullet_creates_list (plainEditor (str "12." ++ [160%N]) None false)
                    (str "12.") typedRange eq_refl eq_refl eq_refl)).
    + discriminate.
    + discriminate.
    + reflexivity.
Defined.

Lemma AutoNumberingList_after_typing_witness :
  AutoNumberingList_handleEvent unit decimalStyle
    (plainEditor (str "i)" ++ [160%N]) (Some liNode) true)
  = [insertContent (str "&nbsp;"); preventDefault;
     addUndoSnapshot
       [prepareAutoBullet typedRange;
        toggleNumbering (Some (Num 1)) None (Some (str "autoToggleList"));
        deleteContents (str "i)" ++ [160%N])]
       true].
Proof.
  apply (AutoNumberingList_after_typing unit decimalStyle
           (plainEditor (str "i)" ++ [160%N]) (Some liNode) true) (str "i)") typedRange
           eq_refl eq_refl).
Defined.

Lemma auto_list_predicates_exclusive_witness :
  AutoBulletList_shouldHandleEvent unit noChains inOrderedList styleThree discStyle
    (plainEditor (str "*") None false) = false
  /\ AutoNumberingList_shouldHandleEvent unit noChains inOrderedList styleThree decimalStyle
       (plainEditor (str "*") None false) = false.
Proof.
  apply (proj1 (auto_list_predicates_exclusive unit noChains inOrderedList styleThree
                  discStyle decimalStyle (plainEditor (str "*") None false))).
  reflexivity.
Defined.

End AutoListFacts.

(* ===================================================================== *)
(** * The key features of lists: Tab, Backspace, Enter and Delete *)
(* ===================================================================== *)

Module KeyFeatures.
Import Js.

(** [event.rawEvent]. *)
Record PluginKeyboardEvent := { shiftKey : bool }.

Inductive Indentation := Increase | Decrease.

Inductive QueryScope := Body | OnSelection | InSelection.

(** What the callback given to [blockFormat] does for a region. *)
Inductive RegionCall :=
| createVListFromRegion (includeSiblingList : bool) (startNode : ListFeatures.Node)
| vListSetIndentation (indentation : Indentation) (softOutdent : bool)
| writeBack (shouldReuseAllAncestorListElements : bool)
| preventDefaultInRegion.

(** The calls an action makes, in order. *)
Inductive ListCall :=
| setIndentation (indentation : Indentation)
| toggleListType (listType : ListFeatures.ListType) (startNumber : option Z)
    (includeSiblingLists : bool)
| blockFormat (callback : list RegionCall)
| focus
| preventDefault.

Inductive EventCall (Chains : Type) :=
| direct (call : ListCall)
| addUndoSnapshot (callback : list ListCall) (canUndoByBackspace : bool)
| runAsync_commitListChains (chains : Chains).

Arguments direct {Chains} call.
Arguments addUndoSnapshot {Chains} callback canUndoByBackspace.
Arguments runAsync_commitListChains {Chains} chains.

(** [editor.getElementAtCursor('LI', null, event)]. *)
Definition listItemAtCursor (editor : ListFeatures.IEditor) : option ListFeatures.Node :=
  ListFeatures.getElementAtCursor editor (str "LI") None.

(** ** Tab *)

Definition IndentWhenTab_shouldHandleEvent (event : PluginKeyboardEvent)
    (editor : ListFeatures.IEditor) : bool :=
  negb (shiftKey event) && bool_decide (is_Some (ListFeatures.cacheGetListElement editor)).

Definition IndentWhenTab_handleEvent : list ListCall :=
  [setIndentation Increase; preventDefault].

Definition OutdentWhenShiftTab_shouldHandleEvent (event : PluginKeyboardEvent)
    (editor : ListFeatures.IEditor) : bool :=
  shiftKey event && bool_decide (is_Some (ListFeatures.cacheGetListElement editor)).

Definition OutdentWhenShiftTab_handleEvent : list ListCall :=
  [setIndentation Decrease; preventDefault].

(** ** toggleListAndPreventDefault *)

Definition toggleListAndPreventDefault (editor : ListFeatures.IEditor)
    (includeSiblingLists : bool) : list ListCall :=
  match ListFeatures.cacheGetListElement editor with
  | Some (listElement, li) =>
      let tag := ListFeatures.getTagOfNode (Some listElement) in
      (if ListFeatures.sameString tag (str "UL") || ListFeatures.sameString tag (str "OL")
       then [toggleListType
               (if ListFeatures.sameString tag (str "UL")
                then ListFeatures.Unordered else ListFeatures.Ordered)
               None includeSiblingLists]
       else [])
      ++ [focus; preventDefault]
  | None => []
  end.

Section WithDom.

(** Imported, or read from the document, and not among the sources. *)
Variable isNodeEmpty : ListFeatures.Node -> bool.
Variable previousSibling : ListFeatures.Node -> option ListFeatures.Node.

(** [editor.getSelectionRange()] with its [collapsed], and
    [isPositionAtBeginningOf(Position.getStart(range), li)]. *)
Variable SelectionRange : Type.
Variable getSelectionRange : ListFeatures.IEditor -> option SelectionRange.
Variable collapsed : SelectionRange -> bool.
Variable isPositionAtBeginningOf : SelectionRange -> ListFeatures.Node -> bool.

(** [Position.getEnd(editor.getSelectionRange()).isAtEnd], and the start node
    of the block after the end of the selection, which [getCacheNextSibling]
    looks up once for the event. *)
Variable selectionEndIsAtEnd : ListFeatures.IEditor -> bool.
Variable getCacheNextSibling : ListFeatures.IEditor -> option ListFeatures.Node.

Variable queryElements :
  ListFeatures.IEditor -> JsString -> QueryScope -> list ListFeatures.Node.

Variable VListChain : Type.
Variable createListChains : list ListFeatures.Region -> list VListChain.

(** ** Backspace *)

Definition MergeInNewLine_shouldHandleEvent (editor : ListFeatures.IEditor) : bool :=
  match listItemAtCursor editor, getSelectionRange editor with
  | Some li, Some range => collapsed range && isPositionAtBeginningOf range li
  | _, _ => false
  end.

(** [li.previousSibling] throws when there is no list item at the cursor. *)
Definition MergeInNewLine_handleEvent (editor : ListFeatures.IEditor) :
    Completion (list ListCall) :=
  match listItemAtCursor editor with
  | None => Thrown TypeError
  | Some li =>
      if bool_decide (is_Some (previousSibling li))
      then Returned
             [blockFormat
                [createVListFromRegion false li;
                 vListSetIndentation Decrease true;
                 writeBack
                   (ListFeatures.isFeatureEnabled editor
                      ListFeatures.ReuseAllAncestorListElements);
                 preventDefaultInRegion]]
      else Returned (toggleListAndPreventDefault editor true)
  end.

Definition OutdentWhenBackOn1stEmptyLine_shouldHandleEvent
    (editor : ListFeatures.IEditor) : bool :=
  match listItemAtCursor editor with
  | Some li => isNodeEmpty li && negb (bool_decide (is_Some (previousSibling li)))
  | None => false
  end.

Definition OutdentWhenBackOn1stEmptyLine_handleEvent (editor : ListFeatures.IEditor) :
    list ListCall :=
  toggleListAndPreventDefault editor true.

(** ** Enter *)

Definition OutdentWhenEnterOnEmptyLine_shouldHandleEvent (event : PluginKeyboardEvent)
    (editor : ListFeatures.IEditor) : bool :=
  negb (shiftKey event)
  && match listItemAtCursor editor with
     | Some li => isNodeEmpty li
     | None => false
     end.

Definition OutdentWhenEnterOnEmptyLine_handleEvent (editor : ListFeatures.IEditor) :
    list (EventCall (list VListChain)) :=
  [addUndoSnapshot (toggleListAndPreventDefault editor false) true].

(** ** Delete, and the list chains *)

Definition MaintainListChainWhenDelete_shouldHandleEvent
    (editor : ListFeatures.IEditor) : bool :=
  match listItemAtCursor editor with
  | Some _ => false
  | None =>
      let isAtEnd := selectionEndIsAtEnd editor in
      let nextSibling := if isAtEnd then getCacheNextSibling editor else None in
      bool_decide
        (is_Some (ListFeatures.getElementAtCursor editor (str "LI") nextSibling))
  end.

Definition MaintainListChain_shouldHandleEvent (editor : ListFeatures.IEditor) : bool :=
  0 <? Z.of_nat (length (queryElements editor (str "li") OnSelection)).

(** The action of both chain features. *)
Definition MaintainListChain_handleEvent (editor : ListFeatures.IEditor) :
    list (EventCall (list VListChain)) :=
  [runAsync_commitListChains
     (ListFeatures.getListChains VListChain createListChains editor)].

(** ** Properties *)

(** X14.  For one Tab event, indent and outdent never both apply.  With the
    cursor in a list item of a list exactly one applies: indent without
    Shift, outdent with it.  Neither applies when the closest list item or
    table at the cursor is absent or is not a list item, as for a table
    inside a list item. *)
Theorem tab_features_exclusive (event : PluginKeyboardEvent)
    (editor : ListFeatures.IEditor) :
  let indent := IndentWhenTab_shouldHandleEvent event editor in
  let outdent := OutdentWhenShiftTab_shouldHandleEvent event editor in
  indent && outdent = false
  /\ (is_Some (ListFeatures.cacheGetListElement editor) ->
      indent = negb (shiftKey event) /\ outdent = shiftKey event)
  /\ ((forall node,
         ListFeatures.getElementAtCursor editor (str "LI,TABLE") None = Some node ->
         ListFeatures.tagName node <> str "LI") ->
      indent = false /\ outdent = false).
Proof.
  cbv zeta. unfold IndentWhenTab_shouldHandleEvent, OutdentWhenShiftTab_shouldHandleEvent.
  split; [by destruct (shiftKey event), (bool_decide _)|]. split.
  - intros Hlist. rewrite (bool_decide_eq_true_2 _ Hlist). by rewrite !andb_true_r.
  - intros Hshield.
    assert (Hnone : ListFeatures.cacheGetListElement editor = None).
    { unfold ListFeatures.cacheGetListElement.
      destruct (ListFeatures.getElementAtCursor editor (str "LI,TABLE") None)
        as [node|] eqn:Hnode; [|done].
      unfold ListFeatures.sameString, ListFeatures.getTagOfNode. simpl.
      by rewrite (bool_decide_eq_false_2 _ (Hshield node eq_refl)). }
    rewrite Hnone. by rewrite !andb_false_r.
Qed.

(** X15.  The merge-in-new-line action throws exactly when there is no list
    item at the cursor, so it returns whenever its predicate holds.  And
    where the predicate of outdent-on-empty-first-line holds, it makes the
    very calls of that feature's action. *)
Theorem backspace_features_agree (editor : ListFeatures.IEditor) :
  (MergeInNewLine_handleEvent editor = Thrown TypeError
   <-> listItemAtCursor editor = None)
  /\ (MergeInNewLine_shouldHandleEvent editor = true ->
      exists calls, MergeInNewLine_handleEvent editor = Returned calls)
  /\ (OutdentWhenBackOn1stEmptyLine_shouldHandleEvent editor = true ->
      MergeInNewLine_handleEvent editor
      = Returned (OutdentWhenBackOn1stEmptyLine_handleEvent editor)).
Proof.
  unfold MergeInNewLine_handleEvent, MergeInNewLine_shouldHandleEvent,
    OutdentWhenBackOn1stEmptyLine_shouldHandleEvent,
    OutdentWhenBackOn1stEmptyLine_handleEvent.
  destruct (listItemAtCursor editor) as [li|]; [|done].
  split; [|split].
  - by destruct (bool_decide _).
  - intros _. destruct (bool_decide _); by eexists.
  - intros H. apply andb_true_iff in H as [_ H]. apply negb_true_iff in H. by rewrite H.
Qed.

(** X16.  Maintain-chain-on-delete applies exactly when there is no list item
    at the cursor, the end of the selection is at the end of its node, a next
    block follows, and a list item is found from the start of that block.  It
    never applies with the cursor in a list item. *)
Theorem MaintainListChainWhenDelete_exactly_when (editor : ListFeatures.IEditor) :
  MaintainListChainWhenDelete_shouldHandleEvent editor = true
  <-> listItemAtCursor editor = None
      /\ selectionEndIsAtEnd editor = true
      /\ exists next,
           getCacheNextSibling editor = Some next
           /\ is_Some (ListFeatures.getElementAtCursor editor (str "LI") (Some next)).
Proof.
  unfold MaintainListChainWhenDelete_shouldHandleEvent. cbv zeta.
  destruct (listItemAtCursor editor) as [li|] eqn:Hli; [split; [done | by intros [? _]]|].
  rewrite bool_decide_eq_true.
  destruct (selectionEndIsAtEnd editor).
  - destruct (getCacheNextSibling editor) as [next|].
    + split; [intros H; by eauto | by intros (_ & _ & next' & [= <-] & H)].
    + unfold listItemAtCursor in Hli. rewrite Hli. split; [by intros [? ?]|].
      by intros (_ & _ & next & ? & _).
  - unfold listItemAtCursor in Hli. rewrite Hli. split; [by intros [? ?]|].
    by intros (_ & ? & _).
Qed.

End WithDom.

(** ** Examples *)

Definition inListItem : ListFeatures.IEditor :=
  {| ListFeatures.getElementAtCursor :=
       fun selector startFrom =>
         if ListFeatures.sameString selector (str "UL,OL") then Some ListFeatures.olNode
         else Some ListFeatures.liNode;
     ListFeatures.isFeatureEnabled := fun _ => false;
     ListFeatures.getContentSearcherOfCursor :=
       ListFeatures.getContentSearcherOfCursor (ListFeatures.plainEditor [] None false);
     ListFeatures.getSelectedRegions := [];
     ListFeatures.getBodyTraverser :=
       ListFeatures.getBodyTraverser (ListFeatures.plainEditor [] None false) |}.

Example tab_in_a_list_item :
  IndentWhenTab_shouldHandleEvent {| shiftKey := false |} inListItem = true
  /\ OutdentWhenShiftTab_shouldHandleEvent {| shiftKey := false |} inListItem = false
  /\ OutdentWhenShiftTab_shouldHandleEvent {| shiftKey := true |} inListItem = true
  /\ IndentWhenTab_shouldHandleEvent {| shiftKey := false |}
       (ListFeatures.plainEditor [] None false) = false.
Proof. vm_compute. done. Qed.

Example backspace_on_empty_first_item :
  OutdentWhenBackOn1stEmptyLine_shouldHandleEvent (fun _ => true) (fun _ => None) inListItem
  = true
  /\ MergeInNewLine_handleEvent (fun _ => None) inListItem
     = Returned [toggleListType ListFeatures.Ordered None true; focus; preventDefault]
  /\ MergeInNewLine_handleEvent (fun _ => None) (ListFeatures.plainEditor [] None false)
     = Thrown TypeError.
Proof. vm_compute. done. Qed.

End KeyFeatures.
